(** * Azira: the bid-decision engine and the auction-event ledger

    A shallow embedding of [app.py]: the decision engine
    ([DecisionEngine.evaluate_auction]), the data warehouse service
    ([DataWarehouseService.store_auction_event]), the two HTTP handlers
    that drive them ([evaluate_auction] and [auction_result]) and the
    handler that lists the preferences of a user
    ([get_user_preferences]).

    Python floats are IEEE 754 binary64 numbers; they are embedded as
    [spec_float] with precision 53 and maximal exponent 1024, with the
    operations of the standard library's executable specification.
    Strings are sequences of one-byte characters; letter case is the
    case of the ASCII letters. *)

From Stdlib Require Import ZArith List Bool Lia.
From Stdlib Require Import Ascii String.
From Stdlib Require Import DecimalString.
From Stdlib Require Import SpecFloat.
Import ListNotations.

Set Implicit Arguments.

(** ** Host numbers: binary64 *)

Module PyFloat.

Definition float := spec_float.

Definition prec : Z := 53.
Definition emax : Z := 1024.

Definition mul (x y : float) : float := SFmul prec emax x y.
Definition div (x y : float) : float := SFdiv prec emax x y.

(** The four ordered comparisons of two floats.  Every one of them is
    false as soon as an operand is a NaN. *)
Definition lt (x y : float) : bool :=
  match SFcompare x y with Some Lt => true | _ => false end.
Definition gt (x y : float) : bool :=
  match SFcompare x y with Some Gt => true | _ => false end.
Definition le (x y : float) : bool :=
  match SFcompare x y with Some (Lt | Eq) => true | _ => false end.
Definition ge (x y : float) : bool :=
  match SFcompare x y with Some (Gt | Eq) => true | _ => false end.

Definition is_nan (x : float) : bool :=
  match x with S754_nan => true | _ => false end.

(** The float nearest to the integer [n]. *)
Definition of_Z (n : Z) : float := binary_normalize prec emax n 0 false.

(** The float a decimal literal denotes: [decimal n k] is the float
    nearest to [n / 10^k].  Both operands of the division are exact for
    the literals used here, and the division rounds correctly. *)
Definition decimal (n : Z) (k : nat) : float :=
  div (of_Z n) (of_Z (10 ^ Z.of_nat k)).

(** [round_half_even_div num den] is the integer nearest to [num / den]
    ([den] positive), ties going to the even one. *)
Definition round_half_even_div (num den : Z) : Z :=
  let q := (num / den)%Z in
  let r := (num mod den)%Z in
  match (2 * r ?= den)%Z with
  | Lt => q
  | Gt => (q + 1)%Z
  | Eq => if Z.even q then q else (q + 1)%Z
  end.

(** [scaled_nearest m e k] is the integer nearest to [m * 2^e * 10^k]. *)
Definition scaled_nearest (m : positive) (e : Z) (k : nat) : Z :=
  let p := (10 ^ Z.of_nat k)%Z in
  match e with
  | Zneg d => round_half_even_div (Zpos m * p) (2 ^ Zpos d)
  | _ => (Zpos m * p * 2 ^ e)%Z
  end.

(** The builtin [round(x, ndigits)] on a float, for [ndigits >= 0]
    small enough that CPython takes its general path: the exact value of
    [x] is rounded to [ndigits] decimals (ties to even), and the decimal
    result is converted back to the nearest float.  NaNs and infinities
    round to themselves; the sign of a zero result is the sign of [x]. *)
Definition round (x : float) (ndigits : nat) : float :=
  match x with
  | S754_finite s m e =>
      match scaled_nearest m e ndigits with
      | Zpos n => div (S754_finite s n 0) (of_Z (10 ^ Z.of_nat ndigits))
      | _ => S754_zero s
      end
  | _ => x
  end.

(** The builtin [min(a, b)]: the first argument unless the second is
    smaller. *)
Definition min (a b : float) : float := if lt b a then b else a.

(** The builtin [min(a, b, c)]: the running minimum is replaced by a
    later argument only when that argument is smaller. *)
Definition min3 (a b c : float) : float := min (min a b) c.

(** Truth value of a float: every float but the two zeros. *)
Definition truthy (x : float) : bool :=
  match x with S754_zero _ => false | _ => true end.

(** An order-preserving key of the floats that are not NaNs, used to
    reason about [SFcompare]: the class of the number, then exponent and
    mantissa, both negated for negative numbers. *)
Definition rank (x : float) : Z * Z * Z :=
  match x with
  | S754_nan => (0, 0, 0)%Z
  | S754_infinity true => (-2, 0, 0)%Z
  | S754_infinity false => (2, 0, 0)%Z
  | S754_zero _ => (0, 0, 0)%Z
  | S754_finite true m e => (-1, - e, Zneg m)%Z
  | S754_finite false m e => (1, e, Zpos m)%Z
  end.

Definition lex3 (a b : Z * Z * Z) : comparison :=
  let '(a1, a2, a3) := a in
  let '(b1, b2, b3) := b in
  match (a1 ?= b1)%Z with
  | Eq => match (a2 ?= b2)%Z with Eq => (a3 ?= b3)%Z | c => c end
  | c => c
  end.

Definition lexle (a b : Z * Z * Z) : Prop :=
  let '(a1, a2, a3) := a in
  let '(b1, b2, b3) := b in
  (a1 < b1 \/ (a1 = b1 /\ (a2 < b2 \/ (a2 = b2 /\ a3 <= b3))))%Z.

End PyFloat.

Abbreviation float := PyFloat.float (only parsing).

(** ** Host values: exceptions, JSON values, builtins *)

(** Exceptions, by the two classes the handlers tell apart: [ValueError],
    and every other subclass of [Exception]. *)
Inductive exn :=
| ValueError (msg : string)
| OtherError (msg : string).

(** [str(e)] *)
Definition str_exn (e : exn) : string :=
  match e with ValueError m => m | OtherError m => m end.

(** A value decoded from JSON, or about to be encoded. *)
Unset Elimination Schemes.
Inductive jvalue :=
| JNull
| JBool (b : bool)
| JInt (n : Z)
| JNum (x : float)
| JStr (s : string)
| JArr (items : list jvalue)
| JObj (fields : list (string * jvalue)).
Set Elimination Schemes.

(** Truth value of a decoded JSON value, as [if v] tests it. *)
Definition truthy (v : jvalue) : bool :=
  match v with
  | JNull => false
  | JBool b => b
  | JInt n => negb (n =? 0)%Z
  | JNum x => PyFloat.truthy x
  | JStr s => negb (s =? "")%string
  | JArr items => match items with [] => false | _ => true end
  | JObj fields => match fields with [] => false | _ => true end
  end.

(** [str(n)] for an integer. *)
Definition str_int (n : Z) : string := NilZero.string_of_int (Z.to_int n).

Definition opt_jvalue {A} (f : A -> jvalue) (o : option A) : jvalue :=
  match o with Some a => f a | None => JNull end.

(** [max(first :: rest, key=key)]: the running maximum is replaced by a
    later item only when that item's key is greater. *)
Fixpoint max_from {A} (key : A -> float) (maxitem : A) (rest : list A) : A :=
  match rest with
  | [] => maxitem
  | item :: rest' =>
      if PyFloat.gt (key item) (key maxitem)
      then max_from key item rest'
      else max_from key maxitem rest'
  end.

Definition py_max {A} (key : A -> float) (items : list A) : exn + A :=
  match items with
  | [] => inl (ValueError "max() arg is an empty sequence")
  | first :: rest => inr (max_from key first rest)
  end.

(** ** Strings and SQL pattern matching *)

Definition lower_ascii (c : ascii) : ascii :=
  let n := nat_of_ascii c in
  if (65 <=? n)%nat && (n <=? 90)%nat then ascii_of_nat (n + 32) else c.

(** Lowering of the ASCII letters, as SQLite's [lower] does it.  It
    also stands for [str.lower] on the tags of a payload, which agrees
    with it on ASCII text only. *)
Fixpoint lower (s : string) : string :=
  match s with
  | EmptyString => EmptyString
  | String c s' => String (lower_ascii c) (lower s')
  end.

(** The SQL operator [LIKE] without an escape character, as SQLite
    evaluates it: [%] in the pattern stands for any run of characters,
    [_] for any one character, and a letter matches in either case. *)
Fixpoint like (pat : string) : string -> bool :=
  match pat with
  | EmptyString => fun s => match s with EmptyString => true | _ => false end
  | String p pat' =>
      if Ascii.eqb p "%" then
        fix any_suffix (s : string) : bool :=
          like pat' s
          || match s with
             | EmptyString => false
             | String _ s' => any_suffix s'
             end
      else fun s =>
        match s with
        | EmptyString => false
        | String c s' =>
            (Ascii.eqb p "_" || Ascii.eqb (lower_ascii p) (lower_ascii c))
            && like pat' s'
        end
  end.

(** [column.ilike(pattern)], rendered as [lower(column) LIKE lower(pattern)]. *)
Definition ilike (column pattern : string) : bool :=
  like (lower pattern) (lower column).

(** Plain containment: [needle] occurs in [hay] as a run of consecutive
    characters. *)
Fixpoint contains (needle hay : string) : bool :=
  String.prefix needle hay
  || match hay with
     | EmptyString => false
     | String _ hay' => contains needle hay'
     end.

(** Containment up to letter case. *)
Definition contains_ci (needle hay : string) : bool :=
  contains (lower needle) (lower hay).

Fixpoint wildcard_free (s : string) : bool :=
  match s with
  | EmptyString => true
  | String c s' =>
      negb (Ascii.eqb c "%") && negb (Ascii.eqb c "_") && wildcard_free s'
  end.

(** ** Data model *)

Inductive EventType := BID_ACCEPTED | BID_REJECTED | BID_WON | BID_LOST.

Definition EventType_value (t : EventType) : string :=
  match t with
  | BID_ACCEPTED => "bid_accepted"
  | BID_REJECTED => "bid_rejected"
  | BID_WON => "bid_won"
  | BID_LOST => "bid_lost"
  end.

Record AuctionProposal := {
  item_id : string;
  category : string;
  brand : string;
  starting_price : float;
  max_price : float;
  auction_id : string
}.

Record BidDecision := {
  success : bool;
  user_id : option Z;
  bid_amount : option float;
  reason : option string
}.

(** A row of [user_preferences] ([created_at] plays no part and is left
    out). *)
Record UserPreference := {
  pref_id : Z;
  pref_user_id : Z;
  pref_category : string;
  pref_brand : string;
  max_budget : float;
  is_active : bool
}.

(** A row of [auction_events], by the columns the code sets ([id] and
    [timestamp] are filled in by the database).  [extra_data] holds the
    document that [json.dumps] is given; its text encoding is not
    modelled. *)
Record AuctionEvent := {
  ev_auction_id : string;
  ev_item_id : string;
  ev_user_id : option Z;
  event_type : string;
  ev_bid_amount : option float;
  ev_category : string;
  ev_brand : string;
  ev_starting_price : float;
  ev_max_price : float;
  decision_reason : option string;
  extra_data : option jvalue
}.

(** [asdict(proposal)] and [asdict(decision)] *)
Definition asdict_proposal (p : AuctionProposal) : jvalue :=
  JObj [ ("item_id", JStr (item_id p));
         ("category", JStr (category p));
         ("brand", JStr (brand p));
         ("starting_price", JNum (starting_price p));
         ("max_price", JNum (max_price p));
         ("auction_id", JStr (auction_id p)) ]%string.

Definition asdict_decision (d : BidDecision) : jvalue :=
  JObj [ ("success", JBool (success d));
         ("user_id", opt_jvalue JInt (user_id d));
         ("bid_amount", opt_jvalue JNum (bid_amount d));
         ("reason", opt_jvalue JStr (reason d)) ]%string.

(** ** The database session *)

(** What the session was asked to do, in order. *)
Inductive DbOp :=
| OpQuery
| OpAdd (e : AuctionEvent)
| OpCommit
| OpRollback.

(** The two tables, the objects added to the session and not yet
    committed, and the faults the storage layer is about to raise: a
    read fault makes every query raise, a commit fault makes every commit
    raise. *)
Record Database := {
  user_preferences : list UserPreference;
  auction_events : list AuctionEvent;
  session_new : list AuctionEvent;
  read_fault : option string;
  commit_fault : option string;
  oplog : list DbOp
}.

(** Computations over the session that may raise. *)
Definition M (A : Type) : Type := Database -> (exn + A) * Database.

Definition ret {A} (a : A) : M A := fun db => (inr a, db).

Definition raise {A} (e : exn) : M A := fun db => (inl e, db).

Definition bind {A B} (m : M A) (k : A -> M B) : M B :=
  fun db =>
    match m db with
    | (inl e, db') => (inl e, db')
    | (inr a, db') => k a db'
    end.

(** [try: body except ... as e: handler e] *)
Definition try_except {A} (body : M A) (handler : exn -> M A) : M A :=
  fun db =>
    match body db with
    | (inl e, db') => handler e db'
    | (inr a, db') => (inr a, db')
    end.

Definition lift {A} (r : exn + A) : M A :=
  match r with inl e => raise e | inr a => ret a end.

Declare Scope db_scope.
Delimit Scope db_scope with db.
Notation "x <- m ;; k" := (bind m (fun x => k))
  (at level 61, m at next level, right associativity) : db_scope.
Notation "m ;; k" := (bind m (fun _ => k))
  (at level 61, right associativity) : db_scope.
Open Scope db_scope.

Definition log (op : DbOp) (db : Database) : Database :=
  {| user_preferences := user_preferences db;
     auction_events := auction_events db;
     session_new := session_new db;
     read_fault := read_fault db;
     commit_fault := commit_fault db;
     oplog := oplog db ++ [op] |}.

(** [UserPreference.query.filter(...).all()]: the rows that satisfy the
    filter, in table order. *)
Definition query_preferences (keep : UserPreference -> bool)
  : M (list UserPreference) :=
  fun db =>
    let db' := log OpQuery db in
    match read_fault db with
    | Some msg => (inl (OtherError msg), db')
    | None => (inr (filter keep (user_preferences db)), db')
    end.

(** [AuctionEvent.query.filter_by(...).first()]: the first row that
    satisfies the filter, in table order. *)
Definition query_first_event (keep : AuctionEvent -> bool)
  : M (option AuctionEvent) :=
  fun db =>
    let db' := log OpQuery db in
    match read_fault db with
    | Some msg => (inl (OtherError msg), db')
    | None => (inr (find keep (auction_events db)), db')
    end.

(** [db.session.add(event)] *)
Definition session_add (event : AuctionEvent) : M unit :=
  fun db =>
    (inr tt,
     {| user_preferences := user_preferences db;
        auction_events := auction_events db;
        session_new := session_new db ++ [event];
        read_fault := read_fault db;
        commit_fault := commit_fault db;
        oplog := oplog db ++ [OpAdd event] |}).

(** [db.session.commit()]: the pending objects become rows, unless the
    storage layer faults. *)
Definition session_commit : M unit :=
  fun db =>
    match commit_fault db with
    | Some msg => (inl (OtherError msg), log OpCommit db)
    | None =>
        (inr tt,
         {| user_preferences := user_preferences db;
            auction_events := auction_events db ++ session_new db;
            session_new := [];
            read_fault := read_fault db;
            commit_fault := commit_fault db;
            oplog := oplog db ++ [OpCommit] |})
    end.

(** [db.session.rollback()]: the pending objects are dropped.  The
    rollback itself is taken not to raise. *)
Definition session_rollback : M unit :=
  fun db =>
    (inr tt,
     {| user_preferences := user_preferences db;
        auction_events := auction_events db;
        session_new := [];
        read_fault := read_fault db;
        commit_fault := commit_fault db;
        oplog := oplog db ++ [OpRollback] |}).

(** ** Services *)

Module DecisionEngine.

(** The filter of the preference query: the proposal's category and
    brand, wrapped in [%], are patterns the preference's columns are
    matched against; the budget covers the starting price; the
    preference is active. *)
Definition preference_filter (proposal : AuctionProposal)
  (p : UserPreference) : bool :=
  ilike (pref_category p) ("%" ++ category proposal ++ "%")
  && ilike (pref_brand p) ("%" ++ brand proposal ++ "%")
  && PyFloat.ge (max_budget p) (starting_price proposal)
  && Bool.eqb (is_active p) true.

Definition no_match_reason : string :=
  "Aucun utilisateur ne correspond aux critères".

Definition optimal_reason (uid : Z) : string :=
  "Enchère optimale pour l'utilisateur " ++ str_int uid.

Definition technical_reason (e : exn) : string :=
  "Erreur technique: " ++ str_exn e.

Definition evaluate_auction (proposal : AuctionProposal) : M BidDecision :=
  try_except
    (matching_preferences <- query_preferences (preference_filter proposal) ;;
     match matching_preferences with
     | [] =>
         ret {| success := false;
                user_id := None;
                bid_amount := None;
                reason := Some no_match_reason |}
     | _ :: _ =>
         best_preference <- lift (py_max max_budget matching_preferences) ;;
         let bid_amount :=
           PyFloat.min
             (PyFloat.mul (starting_price proposal) (PyFloat.decimal 105 2))
             (max_budget best_preference) in
         let bid_amount :=
           if PyFloat.gt bid_amount (max_price proposal)
           then max_price proposal
           else bid_amount in
         ret {| success := true;
                user_id := Some (pref_user_id best_preference);
                bid_amount := Some (PyFloat.round bid_amount 2);
                reason := Some (optimal_reason (pref_user_id best_preference)) |}
     end)
    (fun e =>
       ret {| success := false;
              user_id := None;
              bid_amount := None;
              reason := Some (technical_reason e) |}).

End DecisionEngine.

(** The preferences the query of the engine returns when the storage
    layer answers: the rows that pass the filter, in table order. *)
Definition candidates (proposal : AuctionProposal) (db : Database)
  : list UserPreference :=
  filter (DecisionEngine.preference_filter proposal) (user_preferences db).

Module DataWarehouseService.

Definition decision_event (auction_id item_id : string)
  (proposal : AuctionProposal) (decision : BidDecision)
  (event_type : EventType) : AuctionEvent :=
  {| ev_auction_id := auction_id;
     ev_item_id := item_id;
     ev_user_id := user_id decision;
     event_type := EventType_value event_type;
     ev_bid_amount := bid_amount decision;
     ev_category := category proposal;
     ev_brand := brand proposal;
     ev_starting_price := starting_price proposal;
     ev_max_price := max_price proposal;
     decision_reason := reason decision;
     extra_data :=
       Some (JObj [ ("proposal", asdict_proposal proposal);
                    ("decision", asdict_decision decision) ]%string) |}.

Definition store_auction_event (auction_id item_id : string)
  (proposal : AuctionProposal) (decision : BidDecision)
  (event_type : EventType) : M bool :=
  try_except
    (let event :=
       decision_event auction_id item_id proposal decision event_type in
     session_add event ;;
     session_commit ;;
     ret true)
    (fun _ =>
       session_rollback ;;
       ret false).

End DataWarehouseService.

(** ** HTTP handlers *)

Module Routes.

#[local] Open Scope string_scope.

(** The decoded JSON object of a request to [/api/v1/auctions/evaluate],
    by the keys the handler reads: a key is absent ([None]) or bound.
    Identifiers and tags are JSON strings; the prices are any JSON
    value.  [ef_other] tells whether the object has further keys.  A
    payload whose category or brand is bound to a value that is not a
    string, on which [.lower()] raises and the handler answers with
    status 500, is outside this type. *)
Record EvaluateForm := {
  ef_item_id : option string;
  ef_category : option string;
  ef_brand : option string;
  ef_starting_price : option jvalue;
  ef_max_price : option jvalue;
  ef_auction_id : option string;
  ef_other : bool
}.

(** The decoded JSON object of a request to [/api/v1/auctions/result]. *)
Record ResultForm := {
  rf_auction_id : option string;
  rf_item_id : option string;
  rf_won : option jvalue;
  rf_final_price : option jvalue;
  rf_winner_info : option jvalue;
  rf_other : bool
}.

(** What [jsonify] is given (the [timestamp] entry is left out). *)
Inductive Body :=
| ErrorBody (error : string)
| AcceptedBody (auction_id item_id : string) (user_id : option Z)
    (bid_amount : option float) (message : option string)
| RejectedBody (auction_id item_id : string) (reason : option string)
| RecordedBody (message : string) (auction_id : string).

(** Body and status code. *)
Definition Response : Type := Body * Z.

Definition present {A} (o : option A) : bool :=
  match o with Some _ => true | None => false end.

(** [not data] for a decoded object: it has no key. *)
Definition evaluate_form_empty (data : EvaluateForm) : bool :=
  negb (present (ef_item_id data) || present (ef_category data)
        || present (ef_brand data) || present (ef_starting_price data)
        || present (ef_max_price data) || present (ef_auction_id data)
        || ef_other data).

Definition result_form_empty (data : ResultForm) : bool :=
  negb (present (rf_auction_id data) || present (rf_item_id data)
        || present (rf_won data) || present (rf_final_price data)
        || present (rf_winner_info data) || rf_other data).

(** [[field for field in required_fields if field not in data]] *)
Definition missing_fields (required : list (string * bool)) : list string :=
  map fst (filter (fun f => negb (snd f)) required).

(** The text of a list of field names inside an f-string. *)
Definition repr_fields (fields : list string) : string :=
  "[" ++ String.concat ", " (map (fun f => "'" ++ f ++ "'") fields) ++ "]".

Definition evaluate_required (data : EvaluateForm) : list (string * bool) :=
  [ ("item_id", present (ef_item_id data));
    ("category", present (ef_category data));
    ("brand", present (ef_brand data));
    ("starting_price", present (ef_starting_price data));
    ("max_price", present (ef_max_price data));
    ("auction_id", present (ef_auction_id data)) ]%string.

Definition result_required (data : ResultForm) : list (string * bool) :=
  [ ("auction_id", present (rf_auction_id data));
    ("item_id", present (rf_item_id data));
    ("won", present (rf_won data)) ]%string.

Section Handlers.

(** [float(s)] on a string: the number it denotes, or the message of the
    [ValueError] it raises. *)
Variable float_of_str : string -> string + float.

(** The builtin [float(v)]. *)
Definition py_float (v : jvalue) : exn + float :=
  match v with
  | JNum x => inr x
  | JInt n =>
      match PyFloat.of_Z n with
      | S754_infinity _ => inl (OtherError "int too large to convert to float")
      | x => inr x
      end
  | JBool b => inr (PyFloat.of_Z (if b then 1 else 0))
  | JStr s =>
      match float_of_str s with
      | inl msg => inl (ValueError msg)
      | inr x => inr x
      end
  | JNull =>
      inl (OtherError
             "float() argument must be a string or a real number, not 'NoneType'")
  | JArr _ =>
      inl (OtherError
             "float() argument must be a string or a real number, not 'list'")
  | JObj _ =>
      inl (OtherError
             "float() argument must be a string or a real number, not 'dict'")
  end.

(** The first part of the handler: validation of the payload and
    construction of the proposal.  The result is the response of an early
    [return], or the proposal. *)
Definition build_proposal (data : EvaluateForm)
  : exn + (Response + AuctionProposal) :=
  if evaluate_form_empty data then
    inr (inl (ErrorBody "Payload JSON requis", 400%Z))
  else
    match ef_item_id data, ef_category data, ef_brand data,
          ef_starting_price data, ef_max_price data, ef_auction_id data with
    | Some item, Some cat, Some br, Some sp, Some mp, Some auction =>
        match py_float sp with
        | inl e => inl e
        | inr starting =>
            match py_float mp with
            | inl e => inl e
            | inr maxp =>
                inr (inr {| item_id := item;
                            category := lower cat;
                            brand := lower br;
                            starting_price := starting;
                            max_price := maxp;
                            auction_id := auction |})
            end
        end
    | _, _, _, _, _, _ =>
        inr (inl (ErrorBody
                    ("Champs manquants: "
                     ++ repr_fields (missing_fields (evaluate_required data))),
                  400%Z))
    end.

Definition decision_response (proposal : AuctionProposal)
  (decision : BidDecision) : Response :=
  if success decision then
    (AcceptedBody (auction_id proposal) (item_id proposal)
       (user_id decision) (bid_amount decision) (reason decision), 200%Z)
  else
    (RejectedBody (auction_id proposal) (item_id proposal) (reason decision),
     422%Z).

(** The second part: evaluation, historisation, response. *)
Definition decide_and_record (proposal : AuctionProposal) : M Response :=
  decision <- DecisionEngine.evaluate_auction proposal ;;
  let event_type :=
    if success decision then BID_ACCEPTED else BID_REJECTED in
  DataWarehouseService.store_auction_event
    (auction_id proposal) (item_id proposal) proposal decision event_type ;;
  ret (decision_response proposal decision).

Definition evaluate_auction (data : EvaluateForm) : M Response :=
  try_except
    (built <- lift (build_proposal data) ;;
     match built with
     | inl response => ret response
     | inr proposal => decide_and_record proposal
     end)
    (fun e =>
       match e with
       | ValueError msg => ret (ErrorBody ("Données invalides: " ++ msg), 400%Z)
       | OtherError _ => ret (ErrorBody "Erreur interne du serveur", 500%Z)
       end).

End Handlers.

Definition is_accepted_for (auction item : string) (e : AuctionEvent) : bool :=
  (ev_auction_id e =? auction)%string
  && (ev_item_id e =? item)%string
  && (event_type e =? EventType_value BID_ACCEPTED)%string.

(** An event is an accepted bid for the pair. *)
Definition accepted_for (auction item : string) (e : AuctionEvent) : Prop :=
  ev_auction_id e = auction
  /\ ev_item_id e = item
  /\ event_type e = "bid_accepted".

(** [original] is the first accepted bid for the pair in [events]. *)
Definition first_accepted (auction item : string)
  (events : list AuctionEvent) (original : AuctionEvent) : Prop :=
  exists before after,
    events = (before ++ original :: after)%list
    /\ accepted_for auction item original
    /\ forall e, In e before -> ~ accepted_for auction item e.

Definition result_event (auction item : string) (won : jvalue)
  (final_price winner_info : option jvalue) (original_event : AuctionEvent)
  : AuctionEvent :=
  let event_type := if truthy won then BID_WON else BID_LOST in
  {| ev_auction_id := auction;
     ev_item_id := item;
     ev_user_id := ev_user_id original_event;
     event_type := EventType_value event_type;
     ev_bid_amount := ev_bid_amount original_event;
     ev_category := ev_category original_event;
     ev_brand := ev_brand original_event;
     ev_starting_price := ev_starting_price original_event;
     ev_max_price := ev_max_price original_event;
     decision_reason :=
       Some ("Enchère " ++ if truthy won then "remportée" else "perdue");
     extra_data :=
       Some (JObj [ ("won", won);
                    ("final_price", opt_jvalue (fun v => v) final_price);
                    ("winner_info", opt_jvalue (fun v => v) winner_info)
                  ]%string) |}.

Definition auction_result (data : ResultForm) : M Response :=
  try_except
    (if result_form_empty data then
       ret (ErrorBody "Payload JSON requis", 400%Z)
     else
       match rf_auction_id data, rf_item_id data, rf_won data with
       | Some auction, Some item, Some won =>
           original_event <- query_first_event (is_accepted_for auction item) ;;
           match original_event with
           | None => ret (ErrorBody "Enchère originale non trouvée", 404%Z)
           | Some original =>
               session_add
                 (result_event auction item won (rf_final_price data)
                    (rf_winner_info data) original) ;;
               session_commit ;;
               ret (RecordedBody "Résultat enregistré avec succès" auction,
                    200%Z)
           end
       | _, _, _ =>
           ret (ErrorBody
                  ("Champs manquants: "
                   ++ repr_fields (missing_fields (result_required data))),
                400%Z)
       end)
    (fun _ =>
       session_rollback ;;
       ret (ErrorBody "Erreur interne du serveur", 500%Z)).

End Routes.

(** ** The preferences of a user *)

Module UserRoutes.

(** A row of [users] ([created_at] is left out). *)
Record User := {
  usr_id : Z;
  usr_name : string;
  usr_email : string
}.

(** One entry of the list the handler answers with. *)
Record PreferenceView := {
  pv_id : Z;
  pv_category : string;
  pv_brand : string;
  pv_max_budget : float;
  pv_is_active : bool
}.

Inductive UserBody :=
| NotFound
| PreferencesBody (user_id : Z) (user_name : string)
    (preferences : list PreferenceView).

Definition view (pref : UserPreference) : PreferenceView :=
  {| pv_id := pref_id pref;
     pv_category := pref_category pref;
     pv_brand := pref_brand pref;
     pv_max_budget := max_budget pref;
     pv_is_active := is_active pref |}.

(** [User.query.get(user_id)]: the row of that primary key, if any. *)
Definition query_user (users : list User) (user_id : Z) : M (option User) :=
  fun db =>
    let db' := log OpQuery db in
    match read_fault db with
    | Some msg => (inl (OtherError msg), db')
    | None => (inr (find (fun u => (usr_id u =? user_id)%Z) users), db')
    end.

(** The handler of [/api/v1/users/<user_id>/preferences].  [get_or_404]
    answers 404 for an unknown user; [user.preferences] loads the rows
    that refer to the user; nothing catches an exception. *)
Definition get_user_preferences (users : list User) (user_id : Z)
  : M (UserBody * Z) :=
  found <- query_user users user_id ;;
  match found with
  | None => ret (NotFound, 404%Z)
  | Some user =>
      preferences <-
        query_preferences (fun p => (pref_user_id p =? usr_id user)%Z) ;;
      ret (PreferencesBody user_id (usr_name user)
             (map view (filter is_active preferences)),
           200%Z)
  end.

End UserRoutes.

(** ** Data of the test suite *)

Module Samples.

#[local] Open Scope string_scope.

Definition preference (id user : Z) (cat br : string) (budget : float)
  (active : bool) : UserPreference :=
  {| pref_id := id;
     pref_user_id := user;
     pref_category := cat;
     pref_brand := br;
     max_budget := budget;
     is_active := active |}.

(** The fixture [sample_users]. *)
Definition sample_users : list UserPreference :=
  [ preference 1 1 "robe" "dior" (PyFloat.decimal 2500 0) true;
    preference 2 1 "manteau" "gucci" (PyFloat.decimal 3000 0) true;
    preference 3 2 "pantalon" "saint_laurent" (PyFloat.decimal 800 0) true;
    preference 4 3 "jupe" "louis_vuitton" (PyFloat.decimal 1200 0) false ].

(** Two users with the same budget, as in
    [test_multiple_users_same_budget]. *)
Definition same_budget_users : list UserPreference :=
  [ preference 1 1 "robe" "dior" (PyFloat.decimal 2500 0) true;
    preference 2 2 "robe" "dior" (PyFloat.decimal 2500 0) true ].

(** A database with no fault ahead and a fresh session. *)
Definition database (prefs : list UserPreference)
  (events : list AuctionEvent) : Database :=
  {| user_preferences := prefs;
     auction_events := events;
     session_new := [];
     read_fault := None;
     commit_fault := None;
     oplog := [] |}.

Definition sample_db : Database := database sample_users [].

Definition same_budget_db : Database := database same_budget_users [].

(** The storage layer as the tests patch it: the next query raises, or
    the next commit raises. *)
Definition read_fault_db : Database :=
  {| user_preferences := sample_users;
     auction_events := [];
     session_new := [];
     read_fault := Some "Database error";
     commit_fault := None;
     oplog := [] |}.

Definition proposal (cat br : string) (starting maxp : float)
  : AuctionProposal :=
  {| item_id := "item_123";
     category := cat;
     brand := br;
     starting_price := starting;
     max_price := maxp;
     auction_id := "auction_123" |}.

Definition robe_dior_2000 : AuctionProposal :=
  proposal "robe" "dior" (PyFloat.decimal 2000 0) (PyFloat.decimal 2800 0).

Definition robe_dior_2400 : AuctionProposal :=
  proposal "robe" "dior" (PyFloat.decimal 2400 0) (PyFloat.decimal 2450 0).

Definition pantalon_750_33 : AuctionProposal :=
  proposal "pantalon" "saint_laurent"
    (PyFloat.decimal 75033 2) (PyFloat.decimal 800 0).

Definition chaussures_nike : AuctionProposal :=
  proposal "chaussures" "nike" (PyFloat.decimal 100 0) (PyFloat.decimal 200 0).

(** A price ceiling with a third decimal: starting price 0.125, ceiling
    0.126, against a budget of 10. *)
Definition subcent_db : Database :=
  database [ preference 1 1 "robe" "dior" (PyFloat.decimal 10 0) true ] [].

Definition subcent_proposal : AuctionProposal :=
  proposal "robe" "dior" (PyFloat.decimal 125 3) (PyFloat.decimal 126 3).

(** A preference whose brand is spelt with a hyphen, and a proposal whose
    brand is spelt with an underscore. *)
Definition hyphen_db : Database :=
  database
    [ preference 1 7 "pantalon" "saint-laurent" (PyFloat.decimal 800 0) true ]
    [].

Definition underscore_proposal : AuctionProposal :=
  proposal "pantalon" "saint_laurent"
    (PyFloat.decimal 500 0) (PyFloat.decimal 700 0).

(** The accepted event of [test_auction_result_success], and the ledger
    that holds it. *)
Definition accepted_event : AuctionEvent :=
  {| ev_auction_id := "auction_123";
     ev_item_id := "item_456";
     ev_user_id := Some 1%Z;
     event_type := "bid_accepted";
     ev_bid_amount := Some (PyFloat.decimal 2100 0);
     ev_category := "robe";
     ev_brand := "dior";
     ev_starting_price := PyFloat.decimal 2000 0;
     ev_max_price := PyFloat.decimal 2800 0;
     decision_reason := None;
     extra_data := None |}.

Definition ledger_db : Database := database sample_users [accepted_event].

Definition ledger_commit_fault_db : Database :=
  {| user_preferences := sample_users;
     auction_events := [accepted_event];
     session_new := [];
     read_fault := None;
     commit_fault := Some "Database error";
     oplog := [] |}.

Definition won_form : Routes.ResultForm :=
  {| Routes.rf_auction_id := Some "auction_123";
     Routes.rf_item_id := Some "item_456";
     Routes.rf_won := Some (JBool true);
     Routes.rf_final_price := Some (JNum (PyFloat.decimal 2200 0));
     Routes.rf_winner_info := None;
     Routes.rf_other := false |}.

(** The payload of [test_case_insensitive_matching]. *)
Definition uppercase_form : Routes.EvaluateForm :=
  {| Routes.ef_item_id := Some "item_123";
     Routes.ef_category := Some "ROBE";
     Routes.ef_brand := Some "DIOR";
     Routes.ef_starting_price := Some (JNum (PyFloat.decimal 2000 0));
     Routes.ef_max_price := Some (JNum (PyFloat.decimal 2800 0));
     Routes.ef_auction_id := Some "auction_123";
     Routes.ef_other := false |}.

(** A parser for [float(s)] that refuses every string. *)
Definition no_float (s : string) : string + float :=
  inl ("could not convert string to float: '" ++ s ++ "'").

End Samples.

(** ** States of the session *)

(** The state after [db.session.add(event)], after a commit that goes
    through, and after a rollback: the second components of
    [session_add], [session_commit] and [session_rollback]. *)
Definition session_add_state (event : AuctionEvent) (db : Database)
  : Database :=
  snd (session_add event db).

Definition session_commit_state (db : Database) : Database :=
  {| user_preferences := user_preferences db;
     auction_events := auction_events db ++ session_new db;
     session_new := [];
     read_fault := read_fault db;
     commit_fault := commit_fault db;
     oplog := oplog db ++ [OpCommit] |}.

Definition session_rollback_state (db : Database) : Database :=
  snd (session_rollback db).

(** ** Further data *)

Module MoreSamples.

#[local] Open Scope string_scope.

(** The users of the fixture [sample_users]. *)
Definition users : list UserRoutes.User :=
  [ {| UserRoutes.usr_id := 1;
       UserRoutes.usr_name := "Alice Martin";
       UserRoutes.usr_email := "alice@test.com" |};
    {| UserRoutes.usr_id := 2;
       UserRoutes.usr_name := "Bob Dubois";
       UserRoutes.usr_email := "bob@test.com" |};
    {| UserRoutes.usr_id := 3;
       UserRoutes.usr_name := "Claire Dupont";
       UserRoutes.usr_email := "claire@test.com" |} ].

Definition alice_robe : UserPreference :=
  Samples.preference 1 1 "robe" "dior" (PyFloat.decimal 2500 0) true.

Definition claire_jupe : UserPreference :=
  Samples.preference 4 3 "jupe" "louis_vuitton" (PyFloat.decimal 1200 0) false.

(** The proposal of [test_case_insensitive_matching] before the handler
    lowers it. *)
Definition ROBE_DIOR_2000 : AuctionProposal :=
  Samples.proposal "ROBE" "DIOR"
    (PyFloat.decimal 2000 0) (PyFloat.decimal 2800 0).

(** The payload of [test_evaluate_auction_success]. *)
Definition robe_form : Routes.EvaluateForm :=
  {| Routes.ef_item_id := Some "item_123";
     Routes.ef_category := Some "robe";
     Routes.ef_brand := Some "dior";
     Routes.ef_starting_price := Some (JNum (PyFloat.decimal 2000 0));
     Routes.ef_max_price := Some (JNum (PyFloat.decimal 2800 0));
     Routes.ef_auction_id := Some "auction_123";
     Routes.ef_other := false |}.

(** The payload of [test_evaluate_auction_no_match]. *)
Definition chaussures_form : Routes.EvaluateForm :=
  {| Routes.ef_item_id := Some "item_123";
     Routes.ef_category := Some "chaussures";
     Routes.ef_brand := Some "nike";
     Routes.ef_starting_price := Some (JNum (PyFloat.decimal 100 0));
     Routes.ef_max_price := Some (JNum (PyFloat.decimal 200 0));
     Routes.ef_auction_id := Some "auction_123";
     Routes.ef_other := false |}.

(** The payload of [test_evaluate_auction_missing_fields]. *)
Definition two_fields_form : Routes.EvaluateForm :=
  {| Routes.ef_item_id := Some "item_123";
     Routes.ef_category := Some "robe";
     Routes.ef_brand := None;
     Routes.ef_starting_price := None;
     Routes.ef_max_price := None;
     Routes.ef_auction_id := None;
     Routes.ef_other := false |}.

(** The payload of [test_evaluate_auction_invalid_data]. *)
Definition invalid_price_form : Routes.EvaluateForm :=
  {| Routes.ef_item_id := Some "item_123";
     Routes.ef_category := Some "robe";
     Routes.ef_brand := Some "dior";
     Routes.ef_starting_price := Some (JStr "invalid_price");
     Routes.ef_max_price := Some (JNum (PyFloat.decimal 2800 0));
     Routes.ef_auction_id := Some "auction_123";
     Routes.ef_other := false |}.

(** The payload of [test_auction_result_missing_fields]. *)
Definition auction_only_form : Routes.ResultForm :=
  {| Routes.rf_auction_id := Some "auction_123";
     Routes.rf_item_id := None;
     Routes.rf_won := None;
     Routes.rf_final_price := None;
     Routes.rf_winner_info := None;
     Routes.rf_other := false |}.

End MoreSamples.

(** * Properties *)

(** ** The order of the floats *)

Module FloatOrder.

Import PyFloat.

Lemma compare_swap (x y : float) :
  SFcompare y x = option_map CompOpp (SFcompare x y).
Proof.
  destruct x as [[]|[]| |[] mx ex], y as [[]|[]| |[] my ey];
    simpl; try reflexivity;
    fold (Pos.compare mx my); fold (Pos.compare my mx);
    rewrite (Z.compare_antisym ex ey), (Pos.compare_antisym mx my);
    destruct (ex ?= ey)%Z; simpl; try reflexivity;
    destruct (mx ?= my)%positive; reflexivity.
Qed.

(** [a > b] and [b < a] are the same test, NaNs included. *)
Lemma gt_lt (a b : float) : gt a b = lt b a.
Proof.
  unfold gt, lt. rewrite (compare_swap a b).
  destruct (SFcompare a b) as [[]|]; reflexivity.
Qed.

Lemma ge_le (a b : float) : ge a b = le b a.
Proof.
  unfold ge, le. rewrite (compare_swap a b).
  destruct (SFcompare a b) as [[]|]; reflexivity.
Qed.

Lemma compare_rank (x y : float) :
  is_nan x = false -> is_nan y = false ->
  SFcompare x y = Some (lex3 (rank x) (rank y)).
Proof.
  destruct x as [[]|[]| |[] mx ex], y as [[]|[]| |[] my ey]; simpl;
    try discriminate; try reflexivity; intros _ _.
  rewrite Z.compare_opp. fold (Pos.compare mx my).
  destruct (ey ?= ex)%Z eqn:E; rewrite (Z.compare_antisym ey ex), E;
    simpl; reflexivity.
Qed.

Lemma lex3_le (a b : Z * Z * Z) : lex3 a b <> Gt <-> lexle a b.
Proof.
  destruct a as [[a1 a2] a3], b as [[b1 b2] b3]; unfold lex3, lexle.
  destruct (Z.compare_spec a1 b1), (Z.compare_spec a2 b2),
    (Z.compare_spec a3 b3);
    split; intro HH; try lia; try congruence; try discriminate.
Qed.

Lemma lex3_lt (a b : Z * Z * Z) : lex3 a b = Lt <-> ~ lexle b a.
Proof.
  destruct a as [[a1 a2] a3], b as [[b1 b2] b3]; unfold lex3, lexle.
  destruct (Z.compare_spec a1 b1), (Z.compare_spec a2 b2),
    (Z.compare_spec a3 b3);
    split; intro HH; try lia; try congruence; try discriminate.
Qed.

Lemma le_not_nan (x y : float) :
  le x y = true -> is_nan x = false /\ is_nan y = false.
Proof.
  unfold le. destruct x, y; simpl; try discriminate; auto.
Qed.

Lemma lt_not_nan (x y : float) :
  lt x y = true -> is_nan x = false /\ is_nan y = false.
Proof.
  unfold lt. destruct x, y; simpl; try discriminate; auto.
Qed.

Lemma le_rank (x y : float) :
  le x y = true <->
  is_nan x = false /\ is_nan y = false /\ lexle (rank x) (rank y).
Proof.
  split.
  - intro H. destruct (le_not_nan _ _ H) as [Nx Ny].
    repeat split; trivial. apply lex3_le.
    unfold le in H. rewrite (compare_rank x y Nx Ny) in H.
    destruct (lex3 (rank x) (rank y)); congruence.
  - intros (Nx & Ny & H). unfold le. rewrite (compare_rank x y Nx Ny).
    apply lex3_le in H. destruct (lex3 (rank x) (rank y)); congruence.
Qed.

Lemma lt_rank (x y : float) :
  lt x y = true <->
  is_nan x = false /\ is_nan y = false /\ ~ lexle (rank y) (rank x).
Proof.
  split.
  - intro H. destruct (lt_not_nan _ _ H) as [Nx Ny].
    repeat split; trivial. apply lex3_lt.
    unfold lt in H. rewrite (compare_rank x y Nx Ny) in H.
    destruct (lex3 (rank x) (rank y)); congruence.
  - intros (Nx & Ny & H). unfold lt. rewrite (compare_rank x y Nx Ny).
    apply lex3_lt in H. rewrite H. reflexivity.
Qed.

Lemma le_refl (x : float) : is_nan x = false -> le x x = true.
Proof.
  intro Nx. apply le_rank. repeat split; trivial.
  destruct (rank x) as [[a1 a2] a3]. unfold lexle. lia.
Qed.

Lemma le_trans (x y z : float) :
  le x y = true -> le y z = true -> le x z = true.
Proof.
  rewrite !le_rank. intros (Nx & _ & Hxy) (_ & Nz & Hyz).
  repeat split; trivial.
  destruct (rank x) as [[a1 a2] a3], (rank y) as [[b1 b2] b3],
    (rank z) as [[c1 c2] c3].
  unfold lexle in *. lia.
Qed.

Lemma lt_le (x y : float) : lt x y = true -> le x y = true.
Proof.
  unfold lt, le. destruct (SFcompare x y) as [[]|]; congruence.
Qed.

Lemma le_lt_trans (x y z : float) :
  le x y = true -> lt y z = true -> lt x z = true.
Proof.
  rewrite le_rank, !lt_rank. intros (Nx & _ & Hxy) (_ & Nz & Hyz).
  repeat split; trivial.
  destruct (rank x) as [[a1 a2] a3], (rank y) as [[b1 b2] b3],
    (rank z) as [[c1 c2] c3].
  unfold lexle in *. lia.
Qed.

(** Two floats that are not NaNs are comparable. *)
Lemma not_gt_le (x y : float) :
  is_nan x = false -> is_nan y = false -> gt x y = false -> le x y = true.
Proof.
  intros Nx Ny. unfold gt, le. rewrite (compare_rank x y Nx Ny).
  destruct (lex3 (rank x) (rank y)); congruence.
Qed.

(** The capping written as [if bid > ceiling] is the builtin [min]. *)
Lemma cap_is_min (bid ceiling : float) :
  (if gt bid ceiling then ceiling else bid) = min bid ceiling.
Proof. unfold min. rewrite gt_lt. reflexivity. Qed.

End FloatOrder.

(** ** The builtin [max] *)

Section MaxFrom.

Variable A : Type.
Variable key : A -> float.

Lemma max_from_first_greatest (rest : list A) :
  forall first : A,
    (forall p, In p (first :: rest) -> PyFloat.is_nan (key p) = false) ->
    exists before after,
      first :: rest = before ++ max_from key first rest :: after
      /\ (forall p, In p before ->
            PyFloat.lt (key p) (key (max_from key first rest)) = true)
      /\ (forall p, In p after ->
            PyFloat.le (key p) (key (max_from key first rest)) = true).
Proof.
  induction rest as [|item rest IH]; intros first Hnan.
  - exists [], []. simpl. repeat split; intros p [].
  - simpl. destruct (PyFloat.gt (key item) (key first)) eqn:G.
    + destruct (IH item) as (before & after & E & Hb & Ha).
      { intros p Hp. apply Hnan. right. exact Hp. }
      remember (max_from key item rest) as best eqn:Ebest.
      exists (first :: before), after.
      split; [simpl; f_equal; exact E|]. split; [|exact Ha].
      intros p [<-|Hp]; [|apply Hb; exact Hp].
      rewrite FloatOrder.gt_lt in G.
      destruct before as [|b before'].
      * simpl in E. injection E as E _. rewrite <- E. exact G.
      * simpl in E. injection E as E _. subst b.
        apply FloatOrder.le_lt_trans with (key item).
        -- apply FloatOrder.lt_le. exact G.
        -- apply Hb. left. reflexivity.
    + destruct (IH first) as (before & after & E & Hb & Ha).
      { intros p [<-|Hp]; apply Hnan; [left|right; right]; trivial. }
      assert (Hle : PyFloat.le (key item) (key first) = true).
      { apply FloatOrder.not_gt_le; trivial; apply Hnan.
        - right. left. reflexivity.
        - left. reflexivity. }
      remember (max_from key first rest) as best eqn:Ebest.
      destruct before as [|b before'].
      * simpl in E. injection E as E1 E2.
        exists [], (item :: after).
        split; [simpl; rewrite <- E1, <- E2; reflexivity|].
        split; [intros p []|].
        intros p [<-|Hp]; [rewrite <- E1; exact Hle|].
        apply Ha. exact Hp.
      * simpl in E. injection E as E1 E2. subst b.
        exists (first :: item :: before'), after.
        split; [simpl; do 2 f_equal; exact E2|]. split; [|exact Ha].
        intros p [<-|[<-|Hp]].
        -- apply Hb. left. reflexivity.
        -- apply FloatOrder.le_lt_trans with (key first); trivial.
           apply Hb. left. reflexivity.
        -- apply Hb. right. exact Hp.
Qed.

End MaxFrom.

(** ** Patterns and containment *)

Module SqlLike.

#[local] Open Scope string_scope.

Lemma lower_ascii_idem (c : ascii) : lower_ascii (lower_ascii c) = lower_ascii c.
Proof. destruct c as [[] [] [] [] [] [] [] []]; reflexivity. Qed.

Lemma lower_ascii_percent (c : ascii) :
  Ascii.eqb (lower_ascii c) "%" = Ascii.eqb c "%".
Proof. destruct c as [[] [] [] [] [] [] [] []]; reflexivity. Qed.

Lemma lower_ascii_underscore (c : ascii) :
  Ascii.eqb (lower_ascii c) "_" = Ascii.eqb c "_".
Proof. destruct c as [[] [] [] [] [] [] [] []]; reflexivity. Qed.

Lemma lower_app (s t : string) : lower (s ++ t) = lower s ++ lower t.
Proof. induction s as [|c s IH]; simpl; [|rewrite IH]; reflexivity. Qed.

Lemma like_percent_unfold (pat s : string) :
  like (String "%" pat) s
  = like pat s
    || match s with
       | EmptyString => false
       | String _ s' => like (String "%" pat) s'
       end.
Proof. destruct s; reflexivity. Qed.

Lemma like_percent_all (s : string) : like "%" s = true.
Proof.
  induction s as [|c s IH]; [reflexivity|].
  rewrite like_percent_unfold, IH. apply orb_true_r.
Qed.

Lemma like_prefix (n : string) :
  wildcard_free n = true ->
  forall h, like (lower n ++ "%") (lower h) = String.prefix (lower n) (lower h).
Proof.
  induction n as [|c n IH]; intros W h.
  - simpl. rewrite like_percent_all. destruct (lower h); reflexivity.
  - simpl in W. apply andb_true_iff in W as [W Wn]. apply andb_true_iff in W as [Wp Wu].
    simpl. rewrite lower_ascii_percent, lower_ascii_underscore.
    apply negb_true_iff in Wp, Wu. rewrite Wp, Wu.
    destruct h as [|d h]; simpl; [reflexivity|].
    rewrite !lower_ascii_idem, (IH Wn).
    destruct (ascii_dec (lower_ascii c) (lower_ascii d)) as [E|NE].
    + rewrite E, Ascii.eqb_refl. reflexivity.
    + apply Ascii.eqb_neq in NE. rewrite NE. reflexivity.
Qed.

Lemma like_prefix_weak (n : string) :
  forall h, String.prefix (lower n) (lower h) = true ->
            like (lower n ++ "%") (lower h) = true.
Proof.
  induction n as [|c n IH]; intros h P.
  - apply like_percent_all.
  - destruct h as [|d h]; simpl in P; [discriminate|].
    destruct (ascii_dec (lower_ascii c) (lower_ascii d)) as [E|NE];
      [|discriminate].
    specialize (IH h P).
    cbn [lower append].
    destruct (Ascii.eqb (lower_ascii c) "%") eqn:Ep.
    + apply Ascii.eqb_eq in Ep. rewrite Ep.
      rewrite like_percent_unfold, (like_percent_unfold _ (lower h)), IH.
      rewrite orb_true_l. apply orb_true_r.
    + cbn [like]. rewrite Ep, !lower_ascii_idem, E, Ascii.eqb_refl, IH.
      rewrite orb_true_r. reflexivity.
Qed.

Lemma like_contains (n : string) :
  wildcard_free n = true ->
  forall h, like (String "%" (lower n ++ "%")) (lower h)
            = contains (lower n) (lower h).
Proof.
  intros W h. induction h as [|d h IH].
  - rewrite like_percent_unfold, (like_prefix n W ""). reflexivity.
  - rewrite like_percent_unfold, (like_prefix n W (String d h)).
    cbn [lower contains]. cbn [lower] in IH. rewrite IH. reflexivity.
Qed.

Lemma contains_like (n : string) :
  forall h, contains (lower n) (lower h) = true ->
            like (String "%" (lower n ++ "%")) (lower h) = true.
Proof.
  intros h. induction h as [|d h IH]; intro C.
  - rewrite like_percent_unfold. cbn [contains lower] in C.
    rewrite orb_false_r in C.
    rewrite (like_prefix_weak n "" C). reflexivity.
  - rewrite like_percent_unfold. cbn [lower contains] in C.
    apply orb_true_iff in C as [P|C].
    + rewrite (like_prefix_weak n (String d h) P). reflexivity.
    + cbn [lower]. rewrite (IH C). apply orb_true_r.
Qed.

Lemma ilike_pattern (column needle : string) :
  ilike column ("%" ++ needle ++ "%")
  = like (String "%" (lower needle ++ "%")) (lower column).
Proof.
  unfold ilike. cbn [append lower]. rewrite lower_app. reflexivity.
Qed.

Lemma ilike_contains_ci (column needle : string) :
  wildcard_free needle = true ->
  ilike column ("%" ++ needle ++ "%") = contains_ci needle column.
Proof.
  intro W. rewrite ilike_pattern. apply like_contains. exact W.
Qed.

Lemma contains_ci_ilike (column needle : string) :
  contains_ci needle column = true ->
  ilike column ("%" ++ needle ++ "%") = true.
Proof.
  intro C. rewrite ilike_pattern. apply contains_like. exact C.
Qed.

Lemma prefix_append (needle : string) :
  forall hay, String.prefix needle hay = true <->
              exists after, hay = needle ++ after.
Proof.
  induction needle as [|c needle IH]; intro hay.
  - split; [exists hay; reflexivity|]. intros _. destruct hay; reflexivity.
  - destruct hay as [|d hay]; simpl.
    + split; [discriminate|]. intros (a & E). discriminate.
    + destruct (ascii_dec c d) as [<-|NE].
      * rewrite IH. split; intros (a & E); exists a.
        -- rewrite E. reflexivity.
        -- injection E as E. exact E.
      * split; [discriminate|]. intros (a & E). injection E as E _.
        congruence.
Qed.

Lemma contains_spec (needle hay : string) :
  contains needle hay = true <->
  exists before after, hay = before ++ needle ++ after.
Proof.
  induction hay as [|c hay IH]; cbn [contains].
  - rewrite orb_false_r, prefix_append. split.
    + intros (a & E). exists "", a. exact E.
    + intros (b & a & E). destruct b; [exists a; exact E|discriminate].
  - rewrite orb_true_iff, prefix_append, IH. split.
    + intros [(a & E)|(b & a & E)].
      * exists "", a. exact E.
      * exists (String c b), a. simpl. rewrite E. reflexivity.
    + intros (b & a & E). destruct b as [|c' b].
      * left. exists a. exact E.
      * right. exists b, a. simpl in E. injection E as _ E. exact E.
Qed.

End SqlLike.

(** ** The decision engine *)

Section Engine.

#[local] Open Scope string_scope.

Variable proposal : AuctionProposal.
Variable db : Database.

Lemma evaluate_auction_fault (msg : string) :
  read_fault db = Some msg ->
  DecisionEngine.evaluate_auction proposal db
  = (inr {| success := false;
            user_id := None;
            bid_amount := None;
            reason := Some ("Erreur technique: " ++ msg) |},
     log OpQuery db).
Proof.
  intro F. unfold DecisionEngine.evaluate_auction, try_except, bind,
    query_preferences. rewrite F. reflexivity.
Qed.

Lemma evaluate_auction_no_match :
  read_fault db = None ->
  candidates proposal db = [] ->
  DecisionEngine.evaluate_auction proposal db
  = (inr {| success := false;
            user_id := None;
            bid_amount := None;
            reason := Some "Aucun utilisateur ne correspond aux critères" |},
     log OpQuery db).
Proof.
  intros F C. unfold candidates in C.
  unfold DecisionEngine.evaluate_auction, try_except, bind,
    query_preferences. rewrite F, C. reflexivity.
Qed.

Lemma evaluate_auction_match (first : UserPreference)
  (rest : list UserPreference) :
  read_fault db = None ->
  candidates proposal db = first :: rest ->
  DecisionEngine.evaluate_auction proposal db
  = (inr {| success := true;
            user_id := Some (pref_user_id (max_from max_budget first rest));
            bid_amount :=
              Some (PyFloat.round
                      (PyFloat.min3
                         (PyFloat.mul (starting_price proposal)
                            (PyFloat.decimal 105 2))
                         (max_budget (max_from max_budget first rest))
                         (max_price proposal))
                      2);
            reason :=
              Some ("Enchère optimale pour l'utilisateur "
                    ++ str_int
                         (pref_user_id (max_from max_budget first rest))) |},
     log OpQuery db).
Proof.
  intros F C. unfold candidates in C.
  unfold DecisionEngine.evaluate_auction, try_except, bind,
    query_preferences. rewrite F, C. cbn [lift py_max ret].
  rewrite FloatOrder.cap_is_min. reflexivity.
Qed.

(** Every preference the query returns passes the filter and is a row
    of the table. *)
Lemma candidates_In (p : UserPreference) :
  In p (candidates proposal db) <->
  In p (user_preferences db)
  /\ DecisionEngine.preference_filter proposal p = true.
Proof. unfold candidates. apply filter_In. Qed.

(** No candidate has a NaN for a budget: its budget compares with the
    starting price. *)
Lemma candidates_budget_not_nan (p : UserPreference) :
  In p (candidates proposal db) -> PyFloat.is_nan (max_budget p) = false.
Proof.
  intro H. apply candidates_In in H as [_ H].
  unfold DecisionEngine.preference_filter in H.
  apply andb_true_iff in H as [H _]. apply andb_true_iff in H as [_ H].
  rewrite FloatOrder.ge_le in H.
  apply FloatOrder.le_not_nan in H. apply H.
Qed.

End Engine.

(** ** Selection *)

(** C3.  When the query returns one or more preferences, the engine
    succeeds for exactly one of them, [best]: no candidate has a greater
    budget, and among the candidates of greatest budget [best] is the one
    the query returned first (every candidate before it has a strictly
    smaller budget).  The user of the decision is the user of [best]. *)
Theorem selects_first_greatest_budget (proposal : AuctionProposal)
  (db : Database) (first : UserPreference) (rest : list UserPreference) :
  read_fault db = None ->
  candidates proposal db = first :: rest ->
  exists best before after decision db',
    candidates proposal db = before ++ best :: after
    /\ (forall p, In p (candidates proposal db) ->
          PyFloat.le (max_budget p) (max_budget best) = true)
    /\ (forall p, In p before ->
          PyFloat.lt (max_budget p) (max_budget best) = true)
    /\ DecisionEngine.evaluate_auction proposal db = (inr decision, db')
    /\ success decision = true
    /\ user_id decision = Some (pref_user_id best).
Proof.
  intros F C.
  assert (Hnan : forall p, In p (first :: rest) ->
                           PyFloat.is_nan (max_budget p) = false).
  { intros p Hp. apply (candidates_budget_not_nan proposal db).
    rewrite C. exact Hp. }
  destruct (@max_from_first_greatest _ max_budget rest first Hnan)
    as (before & after & E & Hb & Ha).
  remember (max_from max_budget first rest) as best eqn:Ebest.
  exists best, before, after. eexists. eexists.
  split; [rewrite C; exact E|]. split; [|split; [exact Hb|]].
  - intros p Hp. rewrite C, E in Hp. apply in_app_or in Hp as [Hp|[<-|Hp]].
    + apply FloatOrder.lt_le, Hb, Hp.
    + apply FloatOrder.le_refl, Hnan. rewrite E. apply in_or_app.
      right. left. reflexivity.
    + apply Ha, Hp.
  - rewrite (evaluate_auction_match proposal db F C), <- Ebest.
    repeat split.
Qed.

Lemma selects_first_greatest_budget_witness :
  read_fault Samples.same_budget_db = None
  /\ candidates Samples.robe_dior_2000 Samples.same_budget_db
     = Samples.same_budget_users
  /\ exists best before after decision db',
       candidates Samples.robe_dior_2000 Samples.same_budget_db
       = before ++ best :: after
       /\ (forall p,
             In p (candidates Samples.robe_dior_2000 Samples.same_budget_db) ->
             PyFloat.le (max_budget p) (max_budget best) = true)
       /\ (forall p, In p before ->
             PyFloat.lt (max_budget p) (max_budget best) = true)
       /\ DecisionEngine.evaluate_auction Samples.robe_dior_2000
            Samples.same_budget_db = (inr decision, db')
       /\ success decision = true
       /\ user_id decision = Some (pref_user_id best).
Proof.
  split; [reflexivity|]. split; [vm_compute; reflexivity|].
  apply (selects_first_greatest_budget Samples.robe_dior_2000
           Samples.same_budget_db
           (first := Samples.preference 1 1 "robe" "dior"
                       (PyFloat.decimal 2500 0) true)
           (rest := [Samples.preference 2 2 "robe" "dior"
                       (PyFloat.decimal 2500 0) true])).
  - reflexivity.
  - vm_compute; reflexivity.
Defined.

(** With two candidates of the same budget, the first one returned is
    selected. *)
Example same_budget_selects_first :
  fst (DecisionEngine.evaluate_auction Samples.robe_dior_2000
         Samples.same_budget_db)
  = inr {| success := true;
           user_id := Some 1%Z;
           bid_amount := Some (PyFloat.decimal 2100 0);
           reason := Some "Enchère optimale pour l'utilisateur 1"%string |}.
Proof. vm_compute. reflexivity. Qed.

(** ** Decisions *)

Section Decisions.

#[local] Open Scope string_scope.

(** C5, as the code has it.  The engine never raises: it returns a
    decision on every proposal and every state of the storage layer, and
    when the query of the preferences raises with message [detail] the
    decision is unsuccessful, carries no user and no amount, and its
    reason is the text [Erreur technique: ] followed by [detail]. *)
Theorem evaluate_never_raises (proposal : AuctionProposal) (db : Database) :
  exists decision db',
    DecisionEngine.evaluate_auction proposal db = (inr decision, db')
    /\ match read_fault db with
       | Some detail =>
           decision = {| success := false;
                         user_id := None;
                         bid_amount := None;
                         reason := Some ("Erreur technique: " ++ detail) |}
       | None => True
       end.
Proof.
  destruct (read_fault db) as [detail|] eqn:F.
  - eexists. eexists. rewrite (evaluate_auction_fault proposal db F).
    split; reflexivity.
  - destruct (candidates proposal db) as [|first rest] eqn:C.
    + eexists. eexists. rewrite (evaluate_auction_no_match proposal db F C).
      split; [reflexivity|exact I].
    + eexists. eexists. rewrite (evaluate_auction_match proposal db F C).
      split; [reflexivity|exact I].
Qed.

(** C5, as the specification words it, fails: when the query raises
    [Database error], the reason of the decision is not the text
    [technical error: Database error]. *)
Lemma technical_reason_is_not_english :
  exists decision db',
    DecisionEngine.evaluate_auction Samples.robe_dior_2000
      Samples.read_fault_db = (inr decision, db')
    /\ reason decision = Some "Erreur technique: Database error"
    /\ reason decision <> Some "technical error: Database error".
Proof.
  eexists. eexists. split; [vm_compute; reflexivity|].
  split; [reflexivity|]. cbn [reason]. discriminate.
Qed.

(** C6.  The decision of the engine couples its fields: a successful
    decision carries a user and an amount, an unsuccessful one carries
    neither. *)
Theorem decision_coupling (proposal : AuctionProposal) (db : Database) :
  exists decision db',
    DecisionEngine.evaluate_auction proposal db = (inr decision, db')
    /\ if success decision
       then exists user amount,
              user_id decision = Some user /\ bid_amount decision = Some amount
       else user_id decision = None /\ bid_amount decision = None.
Proof.
  destruct (read_fault db) as [detail|] eqn:F.
  - eexists. eexists. rewrite (evaluate_auction_fault proposal db F).
    split; [reflexivity|]. cbn. split; reflexivity.
  - destruct (candidates proposal db) as [|first rest] eqn:C.
    + eexists. eexists. rewrite (evaluate_auction_no_match proposal db F C).
      split; [reflexivity|]. cbn. split; reflexivity.
    + eexists. eexists. rewrite (evaluate_auction_match proposal db F C).
      split; [reflexivity|]. cbn [success user_id bid_amount].
      eexists. eexists. split; reflexivity.
Qed.

(** C8, as the code has it.  When the storage layer answers: if no
    preference passes the filter the decision is unsuccessful and its
    reason is exactly [Aucun utilisateur ne correspond aux critères]; if
    one does, the decision is successful, for some user [uid], and its
    reason is exactly [Enchère optimale pour l'utilisateur ] followed by
    the decimal text of [uid]. *)
Theorem decision_reasons (proposal : AuctionProposal) (db : Database) :
  read_fault db = None ->
  exists decision db',
    DecisionEngine.evaluate_auction proposal db = (inr decision, db')
    /\ match candidates proposal db with
       | [] =>
           success decision = false
           /\ reason decision
              = Some "Aucun utilisateur ne correspond aux critères"
       | _ :: _ =>
           exists uid,
             success decision = true
             /\ user_id decision = Some uid
             /\ reason decision
                = Some ("Enchère optimale pour l'utilisateur " ++ str_int uid)
       end.
Proof.
  intro F. destruct (candidates proposal db) as [|first rest] eqn:C.
  - eexists. eexists. rewrite (evaluate_auction_no_match proposal db F C).
    split; [reflexivity|]. split; reflexivity.
  - eexists. eexists. rewrite (evaluate_auction_match proposal db F C).
    split; [reflexivity|]. eexists. repeat split.
Qed.

Lemma decision_reasons_witness :
  read_fault Samples.sample_db = None
  /\ exists decision db',
       DecisionEngine.evaluate_auction Samples.robe_dior_2000
         Samples.sample_db = (inr decision, db')
       /\ match candidates Samples.robe_dior_2000 Samples.sample_db with
          | [] =>
              success decision = false
              /\ reason decision
                 = Some "Aucun utilisateur ne correspond aux critères"
          | _ :: _ =>
              exists uid,
                success decision = true
                /\ user_id decision = Some uid
                /\ reason decision
                   = Some ("Enchère optimale pour l'utilisateur "
                           ++ str_int uid)
          end.
Proof.
  split; [reflexivity|].
  apply (decision_reasons Samples.robe_dior_2000 Samples.sample_db).
  reflexivity.
Defined.

(** C8, as the specification words it, fails: with no matching
    preference the reason is not [no matching user for criteria], and
    with a matching preference of user 1 it is not
    [optimal bid for user 1]. *)
Lemma reasons_are_not_english :
  (exists decision db',
     DecisionEngine.evaluate_auction Samples.chaussures_nike
       Samples.sample_db = (inr decision, db')
     /\ candidates Samples.chaussures_nike Samples.sample_db = []
     /\ reason decision <> Some "no matching user for criteria")
  /\ (exists decision db',
        DecisionEngine.evaluate_auction Samples.robe_dior_2000
          Samples.sample_db = (inr decision, db')
        /\ user_id decision = Some 1%Z
        /\ reason decision <> Some "optimal bid for user 1").
Proof.
  split; eexists; eexists; (split; [vm_compute; reflexivity|]);
    (split; [reflexivity|]); cbn [reason]; discriminate.
Qed.

End Decisions.

(** ** Pricing *)

Section Pricing.

#[local] Open Scope string_scope.

(** The amount of a successful decision: the minimum of the marked-up
    starting price, the budget of the selected preference and the price
    ceiling, taken as the builtin [min] takes it, then rounded to two
    decimals. *)
Lemma bid_amount_formula (proposal : AuctionProposal) (db : Database)
  (first : UserPreference) (rest : list UserPreference) :
  read_fault db = None ->
  candidates proposal db = first :: rest ->
  exists decision db',
    DecisionEngine.evaluate_auction proposal db = (inr decision, db')
    /\ success decision = true
    /\ bid_amount decision
       = Some (PyFloat.round
                 (PyFloat.min3
                    (PyFloat.mul (starting_price proposal)
                       (PyFloat.decimal 105 2))
                    (max_budget (max_from max_budget first rest))
                    (max_price proposal))
                 2).
Proof.
  intros F C. eexists. eexists.
  rewrite (evaluate_auction_match proposal db F C). repeat split.
Qed.

(** C9.  The amount of a successful decision is the unrounded capped
    candidate, rounded to two decimals by the builtin [round] of the
    host floats, once and last.  With a starting price of 750.33 and
    neither cap binding, the candidate is the float product of 750.33
    and 1.05, which is 787.8465 to four decimals, and the amount is
    787.85. *)
Theorem bid_rounded_once_at_end :
  (forall (proposal : AuctionProposal) (db : Database)
          (first : UserPreference) (rest : list UserPreference),
      read_fault db = None ->
      candidates proposal db = first :: rest ->
      exists decision db',
        DecisionEngine.evaluate_auction proposal db = (inr decision, db')
        /\ bid_amount decision
           = Some (PyFloat.round
                     (PyFloat.min3
                        (PyFloat.mul (starting_price proposal)
                           (PyFloat.decimal 105 2))
                        (max_budget (max_from max_budget first rest))
                        (max_price proposal))
                     2))
  /\ PyFloat.min3
       (PyFloat.mul (PyFloat.decimal 75033 2) (PyFloat.decimal 105 2))
       (PyFloat.decimal 800 0) (PyFloat.decimal 800 0)
     = PyFloat.mul (PyFloat.decimal 75033 2) (PyFloat.decimal 105 2)
  /\ PyFloat.round
       (PyFloat.mul (PyFloat.decimal 75033 2) (PyFloat.decimal 105 2)) 4
     = PyFloat.decimal 7878465 4
  /\ fst (DecisionEngine.evaluate_auction Samples.pantalon_750_33
            Samples.sample_db)
     = inr {| success := true;
              user_id := Some 2%Z;
              bid_amount := Some (PyFloat.decimal 78785 2);
              reason := Some "Enchère optimale pour l'utilisateur 2" |}.
Proof.
  split.
  - intros proposal db first rest F C.
    destruct (bid_amount_formula proposal db F C) as (d & db' & E & _ & B).
    exists d, db'. split; assumption.
  - repeat split; vm_compute; reflexivity.
Qed.

Lemma bid_rounded_once_at_end_witness :
  read_fault Samples.sample_db = None
  /\ candidates Samples.pantalon_750_33 Samples.sample_db
     = [Samples.preference 3 2 "pantalon" "saint_laurent"
          (PyFloat.decimal 800 0) true]
  /\ exists decision db',
       DecisionEngine.evaluate_auction Samples.pantalon_750_33
         Samples.sample_db = (inr decision, db')
       /\ bid_amount decision
          = Some (PyFloat.round
                    (PyFloat.min3
                       (PyFloat.mul (starting_price Samples.pantalon_750_33)
                          (PyFloat.decimal 105 2))
                       (max_budget
                          (max_from max_budget
                             (Samples.preference 3 2 "pantalon" "saint_laurent"
                                (PyFloat.decimal 800 0) true)
                             []))
                       (max_price Samples.pantalon_750_33))
                    2).
Proof.
  split; [reflexivity|]. split; [vm_compute; reflexivity|].
  apply (proj1 bid_rounded_once_at_end Samples.pantalon_750_33
           Samples.sample_db).
  - reflexivity.
  - vm_compute; reflexivity.
Defined.

(** The capped bid of [test_evaluate_auction_bid_capped_by_max_price]:
    budget 2500, starting price 2400, ceiling 2450, amount 2450.0. *)
Example bid_capped_by_max_price :
  fst (DecisionEngine.evaluate_auction Samples.robe_dior_2400
         Samples.sample_db)
  = inr {| success := true;
           user_id := Some 1%Z;
           bid_amount := Some (PyFloat.decimal 2450 0);
           reason := Some "Enchère optimale pour l'utilisateur 1" |}.
Proof. vm_compute. reflexivity. Qed.

(** C1 fails on the code.  With a budget of 10, a starting price of
    0.125 and a price ceiling of 0.126, the capped candidate is 0.126 and
    its rounding to two decimals is 0.13: the amount of the successful
    decision is above the ceiling, hence above the minimum of budget and
    ceiling. *)
Theorem bid_rounded_above_ceiling :
  fst (DecisionEngine.evaluate_auction Samples.subcent_proposal
         Samples.subcent_db)
  = inr {| success := true;
           user_id := Some 1%Z;
           bid_amount := Some (PyFloat.decimal 13 2);
           reason := Some "Enchère optimale pour l'utilisateur 1" |}
  /\ PyFloat.min3
       (PyFloat.mul (starting_price Samples.subcent_proposal)
          (PyFloat.decimal 105 2))
       (PyFloat.decimal 10 0)
       (max_price Samples.subcent_proposal)
     = PyFloat.decimal 126 3
  /\ PyFloat.min (PyFloat.decimal 10 0) (max_price Samples.subcent_proposal)
     = PyFloat.decimal 126 3
  /\ PyFloat.lt (PyFloat.decimal 126 3) (PyFloat.decimal 13 2) = true
  /\ PyFloat.le (PyFloat.decimal 13 2) (PyFloat.decimal 126 3) = false.
Proof. repeat split; vm_compute; reflexivity. Qed.

End Pricing.

(** ** Matching *)

Section Matching.

#[local] Open Scope string_scope.

Variable proposal : AuctionProposal.
Variable p : UserPreference.

(** A preference that is active, whose category and brand contain the
    category and brand of the proposal up to letter case, and whose
    budget covers the starting price, passes the filter. *)
Lemma preference_filter_of_containment :
  is_active p = true ->
  contains_ci (category proposal) (pref_category p) = true ->
  contains_ci (brand proposal) (pref_brand p) = true ->
  PyFloat.ge (max_budget p) (starting_price proposal) = true ->
  DecisionEngine.preference_filter proposal p = true.
Proof.
  intros A C B G. unfold DecisionEngine.preference_filter.
  rewrite (SqlLike.contains_ci_ilike _ _ C), (SqlLike.contains_ci_ilike _ _ B),
    G, A.
  reflexivity.
Qed.

(** When neither the category nor the brand of the proposal holds a
    [%] or a [_], the filter is exactly containment up to letter case,
    the budget test and the active flag. *)
Lemma preference_filter_without_wildcards :
  wildcard_free (category proposal) = true ->
  wildcard_free (brand proposal) = true ->
  DecisionEngine.preference_filter proposal p
  = contains_ci (category proposal) (pref_category p)
    && contains_ci (brand proposal) (pref_brand p)
    && PyFloat.ge (max_budget p) (starting_price proposal)
    && is_active p.
Proof.
  intros Wc Wb. unfold DecisionEngine.preference_filter.
  rewrite (SqlLike.ilike_contains_ci _ _ Wc), (SqlLike.ilike_contains_ci _ _ Wb).
  destruct (is_active p); reflexivity.
Qed.

(** An inactive preference is never a candidate. *)
Lemma inactive_never_candidate (db : Database) :
  is_active p = false -> ~ In p (candidates proposal db).
Proof.
  intros A H. apply candidates_In in H as [_ H].
  unfold DecisionEngine.preference_filter in H. rewrite A in H.
  rewrite andb_false_r in H. discriminate.
Qed.

End Matching.

(** The payload of [test_case_insensitive_matching], in capitals,
    matches the preference of user 1, in small letters. *)
Example uppercase_proposal_matches :
  fst (Routes.evaluate_auction Samples.no_float Samples.uppercase_form
         Samples.sample_db)
  = inr (Routes.AcceptedBody "auction_123" "item_123" (Some 1%Z)
           (Some (PyFloat.decimal 2100 0))
           (Some "Enchère optimale pour l'utilisateur 1"),
         200%Z)%string.
Proof. vm_compute. reflexivity. Qed.

(** C2 fails on the code.  The proposal's brand [saint_laurent] passes
    the filter against a preference whose brand is [saint-laurent], and
    the engine bids for its user, although neither brand contains the
    other: the underscore of the proposal is read as a wildcard. *)
Theorem underscore_brand_matches_hyphen :
  candidates Samples.underscore_proposal Samples.hyphen_db
  = [Samples.preference 1 7 "pantalon" "saint-laurent"
       (PyFloat.decimal 800 0) true]%string
  /\ contains_ci "saint_laurent" "saint-laurent" = false
  /\ contains_ci "saint-laurent" "saint_laurent" = false
  /\ fst (DecisionEngine.evaluate_auction Samples.underscore_proposal
            Samples.hyphen_db)
     = inr {| success := true;
              user_id := Some 7%Z;
              bid_amount := Some (PyFloat.decimal 525 0);
              reason := Some "Enchère optimale pour l'utilisateur 7"%string |}.
Proof. repeat split; vm_compute; reflexivity. Qed.

(** ** The ledger *)

Section Ledger.

(** What one call does to the session, by the outcome of the commit. *)
Lemma store_auction_event_run (auction item : string)
  (proposal : AuctionProposal) (decision : BidDecision)
  (kind : EventType) (db : Database) :
  DataWarehouseService.store_auction_event auction item proposal decision
    kind db
  = match commit_fault db with
    | None =>
        (inr true,
         {| user_preferences := user_preferences db;
            auction_events :=
              auction_events db
              ++ session_new db
              ++ [DataWarehouseService.decision_event auction item proposal
                    decision kind];
            session_new := [];
            read_fault := read_fault db;
            commit_fault := commit_fault db;
            oplog :=
              oplog db
              ++ [OpAdd (DataWarehouseService.decision_event auction item
                           proposal decision kind);
                  OpCommit] |})
    | Some _ =>
        (inr false,
         {| user_preferences := user_preferences db;
            auction_events := auction_events db;
            session_new := [];
            read_fault := read_fault db;
            commit_fault := commit_fault db;
            oplog :=
              oplog db
              ++ [OpAdd (DataWarehouseService.decision_event auction item
                           proposal decision kind);
                  OpCommit; OpRollback] |})
    end.
Proof.
  unfold DataWarehouseService.store_auction_event, try_except, bind,
    session_add, session_commit, session_rollback, ret, log.
  cbn [commit_fault]. destruct (commit_fault db) as [msg|]; cbn;
    rewrite <- ?app_assoc; reflexivity.
Qed.

(** C7.  [store_auction_event] never raises.  When the commit goes
    through it returns [True] and one event becomes the last row of the
    ledger, after whatever the session already held: the event of the
    given auction and item, with the user, amount and reason of the
    decision, the category, brand and prices of the proposal, the text of
    the given kind, and the proposal and the decision as its payload.
    When the commit raises it returns [False], the session is rolled
    back and the ledger is left as it was. *)
Theorem store_auction_event_outcome (auction item : string)
  (proposal : AuctionProposal) (decision : BidDecision)
  (kind : EventType) (db : Database) :
  exists ok db',
    DataWarehouseService.store_auction_event auction item proposal decision
      kind db = (inr ok, db')
    /\ session_new db' = []
    /\ match commit_fault db with
       | None =>
           ok = true
           /\ exists event,
                auction_events db'
                = auction_events db ++ session_new db ++ [event]
                /\ event
                   = DataWarehouseService.decision_event auction item
                       proposal decision kind
                /\ ev_auction_id event = auction
                /\ ev_item_id event = item
                /\ ev_user_id event = user_id decision
                /\ ev_bid_amount event = bid_amount decision
                /\ ev_category event = category proposal
                /\ ev_brand event = brand proposal
                /\ ev_starting_price event = starting_price proposal
                /\ ev_max_price event = max_price proposal
                /\ decision_reason event = reason decision
                /\ event_type event
                   = (match kind with
                      | BID_ACCEPTED => "bid_accepted"
                      | BID_REJECTED => "bid_rejected"
                      | BID_WON => "bid_won"
                      | BID_LOST => "bid_lost"
                      end)%string
                /\ extra_data event
                   = Some (JObj
                        [ ("proposal",
                           JObj [ ("item_id", JStr (item_id proposal));
                                  ("category", JStr (category proposal));
                                  ("brand", JStr (brand proposal));
                                  ("starting_price", JNum (starting_price proposal));
                                  ("max_price", JNum (max_price proposal));
                                  ("auction_id", JStr (auction_id proposal)) ]);
                          ("decision",
                           JObj [ ("success", JBool (success decision));
                                  ("user_id",
                                   match user_id decision with
                                   | Some user => JInt user
                                   | None => JNull
                                   end);
                                  ("bid_amount",
                                   match bid_amount decision with
                                   | Some amount => JNum amount
                                   | None => JNull
                                   end);
                                  ("reason",
                                   match reason decision with
                                   | Some text => JStr text
                                   | None => JNull
                                   end) ]) ]%string)
       | Some _ =>
           ok = false /\ auction_events db' = auction_events db
       end.
Proof.
  rewrite store_auction_event_run.
  destruct (commit_fault db) as [msg|]; eexists; eexists;
    (split; [reflexivity|]); cbn [session_new auction_events].
  - repeat split.
  - split; [reflexivity|]. split; [reflexivity|]. eexists.
    split; [reflexivity|]. split; [reflexivity|].
    destruct kind; repeat split.
Qed.

Lemma is_accepted_for_spec (auction item : string) (e : AuctionEvent) :
  Routes.is_accepted_for auction item e = true
  <-> Routes.accepted_for auction item e.
Proof.
  unfold Routes.is_accepted_for, Routes.accepted_for.
  rewrite !andb_true_iff, !String.eqb_eq. cbn. tauto.
Qed.

Lemma find_no_accepted (auction item : string) (events : list AuctionEvent) :
  (forall e, In e events -> ~ Routes.accepted_for auction item e) ->
  find (Routes.is_accepted_for auction item) events = None.
Proof.
  induction events as [|e events IH]; intro H; [reflexivity|].
  cbn [find]. destruct (Routes.is_accepted_for auction item e) eqn:E.
  - apply is_accepted_for_spec in E. exfalso.
    apply (H e); [left; reflexivity|exact E].
  - apply IH. intros e' He'. apply H. right. exact He'.
Qed.

Lemma find_first_accepted (auction item : string)
  (events : list AuctionEvent) (original : AuctionEvent) :
  Routes.first_accepted auction item events original ->
  find (Routes.is_accepted_for auction item) events = Some original.
Proof.
  intros (before & after & -> & A & N).
  induction before as [|e before IH]; cbn [app find].
  - apply is_accepted_for_spec in A. rewrite A. reflexivity.
  - destruct (Routes.is_accepted_for auction item e) eqn:E.
    + apply is_accepted_for_spec in E. exfalso.
      apply (N e); [left; reflexivity|exact E].
    + apply IH. intros e' He'. apply N. right. exact He'.
Qed.

End Ledger.

(** ** Outcome notifications *)

Section Outcome.

Variable db : Database.
Variables auction item : string.
Variable won : jvalue.
Variables final_price winner_info : option jvalue.
Variable other : bool.

(** C4, as the code has it.  A notification that names the auction, the
    item and the won flag is answered without an exception escaping, in
    a fresh session, as follows.
    - The storage layer answers and the ledger holds no accepted bid for
      the pair: the answer is the not-found error with status 404, and
      nothing is written.
    - The storage layer answers and commits, and [original] is the first
      accepted bid for the pair: the answer has status 200 and one event
      is appended to the ledger, of kind [bid_won] when the flag is true
      and [bid_lost] otherwise, with the user, amount, category, brand,
      starting price and price ceiling of [original] and the bundle of
      flag, final price and winner information as its payload.
    - The query raises, or an accepted bid exists and the commit raises:
      the session is rolled back, nothing is written and the answer is
      the internal error with status 500. *)
Theorem outcome_recording :
  session_new db = [] ->
  exists response db',
    Routes.auction_result
      {| Routes.rf_auction_id := Some auction;
         Routes.rf_item_id := Some item;
         Routes.rf_won := Some won;
         Routes.rf_final_price := final_price;
         Routes.rf_winner_info := winner_info;
         Routes.rf_other := other |} db
    = (inr response, db')
    /\ (read_fault db = None ->
        (forall e, In e (auction_events db) ->
                   ~ Routes.accepted_for auction item e) ->
        response
        = (Routes.ErrorBody "Enchère originale non trouvée"%string, 404%Z)
        /\ auction_events db' = auction_events db
        /\ session_new db' = [])
    /\ (read_fault db = None ->
        commit_fault db = None ->
        forall original,
          Routes.first_accepted auction item (auction_events db) original ->
          response
          = (Routes.RecordedBody "Résultat enregistré avec succès"%string
               auction, 200%Z)
          /\ session_new db' = []
          /\ exists event,
               auction_events db' = auction_events db ++ [event]
               /\ event_type event
                  = (if truthy won then "bid_won" else "bid_lost")%string
               /\ ev_auction_id event = auction
               /\ ev_item_id event = item
               /\ ev_user_id event = ev_user_id original
               /\ ev_bid_amount event = ev_bid_amount original
               /\ ev_category event = ev_category original
               /\ ev_brand event = ev_brand original
               /\ ev_starting_price event = ev_starting_price original
               /\ ev_max_price event = ev_max_price original
               /\ extra_data event
                  = Some (JObj [ ("won", won);
                                 ("final_price",
                                  opt_jvalue (fun v => v) final_price);
                                 ("winner_info",
                                  opt_jvalue (fun v => v) winner_info)
                               ]%string))
    /\ (read_fault db <> None
        \/ (commit_fault db <> None
            /\ exists original,
                 Routes.first_accepted auction item (auction_events db)
                   original) ->
        response
        = (Routes.ErrorBody "Erreur interne du serveur"%string, 500%Z)
        /\ auction_events db' = auction_events db
        /\ session_new db' = []).
Proof.
  intro S.
  unfold Routes.auction_result, try_except, bind, query_first_event,
    session_add, session_commit, session_rollback, ret.
  cbn [Routes.result_form_empty Routes.rf_auction_id Routes.rf_item_id
         Routes.rf_won Routes.rf_final_price Routes.rf_winner_info
         Routes.rf_other Routes.present orb negb].
  destruct (read_fault db) as [rmsg|] eqn:R.
  - eexists. eexists. split; [reflexivity|]. cbn.
    split; [discriminate|]. split; [discriminate|].
    intros _. repeat split.
  - destruct (find (Routes.is_accepted_for auction item) (auction_events db))
      as [found|] eqn:F.
    + cbn [log commit_fault].
      destruct (commit_fault db) as [cmsg|] eqn:C.
      * eexists. eexists. split; [reflexivity|]. cbn.
        split; [|split; [discriminate|intros _; repeat split]].
        intros _ N. apply find_some in F as [Hin Hacc].
        apply is_accepted_for_spec in Hacc. destruct (N found Hin Hacc).
      * eexists. eexists. split; [reflexivity|]. cbn. rewrite S.
        split; [|split].
        -- intros _ N. apply find_some in F as [Hin Hacc].
           apply is_accepted_for_spec in Hacc. destruct (N found Hin Hacc).
        -- intros _ _ original Ho. apply find_first_accepted in Ho.
           rewrite F in Ho. injection Ho as <-.
           split; [reflexivity|]. split; [reflexivity|].
           eexists. split; [reflexivity|]. cbn.
           destruct (truthy won); repeat split.
        -- intros [H|[H _]]; congruence.
    + eexists. eexists. split; [reflexivity|]. cbn. rewrite S.
      split; [intros _ _; repeat split|]. split.
      * intros _ _ original Ho. apply find_first_accepted in Ho. congruence.
      * intros [H|[_ (original & Ho)]]; [congruence|].
        apply find_first_accepted in Ho. congruence.
Qed.

End Outcome.

Lemma outcome_recording_witness :
  session_new Samples.ledger_db = []
  /\ exists response db',
       Routes.auction_result
         {| Routes.rf_auction_id := Some "auction_123"%string;
            Routes.rf_item_id := Some "item_456"%string;
            Routes.rf_won := Some (JBool true);
            Routes.rf_final_price := Some (JNum (PyFloat.decimal 2200 0));
            Routes.rf_winner_info := None;
            Routes.rf_other := false |} Samples.ledger_db
       = (inr response, db')
       /\ response
          = (Routes.RecordedBody "Résultat enregistré avec succès"%string
               "auction_123"%string, 200%Z)
       /\ exists event,
            auction_events db' = auction_events Samples.ledger_db ++ [event]
            /\ event_type event = "bid_won"%string
            /\ ev_user_id event = Some 1%Z
            /\ ev_bid_amount event = Some (PyFloat.decimal 2100 0).
Proof.
  split; [reflexivity|].
  destruct (outcome_recording Samples.ledger_db "auction_123" "item_456"
              (JBool true) (Some (JNum (PyFloat.decimal 2200 0))) None false
              eq_refl)
    as (response & db' & E & _ & Hrec & _).
  exists response, db'. split; [exact E|].
  destruct (Hrec eq_refl eq_refl Samples.accepted_event)
    as (Hr & _ & event & He & Hk & _ & _ & Hu & Hb & _).
  - exists [], []. split; [reflexivity|]. split; [repeat split|].
    intros e [].
  - split; [exact Hr|]. exists event. repeat split; assumption.
Defined.

(** C4, as the specification words it, fails: the ledger holds an
    accepted bid for the pair, the commit raises, and no event is
    recorded; the answer is the internal error. *)
Lemma outcome_not_recorded_on_commit_fault :
  Routes.first_accepted "auction_123" "item_456"
    (auction_events Samples.ledger_commit_fault_db) Samples.accepted_event
  /\ fst (Routes.auction_result Samples.won_form
            Samples.ledger_commit_fault_db)
     = inr (Routes.ErrorBody "Erreur interne du serveur"%string, 500%Z)
  /\ auction_events
       (snd (Routes.auction_result Samples.won_form
               Samples.ledger_commit_fault_db))
     = [Samples.accepted_event].
Proof.
  split; [|split; reflexivity].
  exists [], []. split; [reflexivity|]. split; [repeat split|].
  intros e [].
Qed.

(** ** Historisation of decisions *)

Section Historisation.

Variable float_of_str : string -> string + float.

(** The engine returns a decision and asks the session for one query,
    nothing else. *)
Lemma evaluate_auction_total (proposal : AuctionProposal) (db : Database) :
  exists decision,
    DecisionEngine.evaluate_auction proposal db
    = (inr decision, log OpQuery db).
Proof.
  destruct (read_fault db) as [detail|] eqn:F.
  - eexists. apply (evaluate_auction_fault proposal db F).
  - destruct (candidates proposal db) as [|first rest] eqn:C.
    + eexists. apply (evaluate_auction_no_match proposal db F C).
    + eexists. apply (evaluate_auction_match proposal db F C).
Qed.

(** C10.  Every request whose payload yields a proposal makes the
    handler evaluate the proposal once and then ask the session to add
    and commit exactly one event for it: the event of the auction and
    item of the proposal, with the user, amount and reason of the
    decision, the category, brand and prices of the proposal, the
    proposal and the decision as its payload, and of kind [bid_accepted]
    when the decision succeeded and [bid_rejected] otherwise, whatever
    made the decision fail.  When the commit goes through, the event is
    the new last row of the ledger; when it raises, the session is rolled
    back and the handler still answers with the decision. *)
Theorem evaluate_records_one_event (data : Routes.EvaluateForm)
  (proposal : AuctionProposal) (db : Database) :
  Routes.build_proposal float_of_str data = inr (inr proposal) ->
  exists decision db',
    fst (DecisionEngine.evaluate_auction proposal db) = inr decision
    /\ Routes.evaluate_auction float_of_str data db
       = (inr (Routes.decision_response proposal decision), db')
    /\ (exists event,
          oplog db'
          = oplog db
            ++ [OpQuery; OpAdd event; OpCommit]
            ++ match commit_fault db with
               | None => []
               | Some _ => [OpRollback]
               end
          /\ event
             = DataWarehouseService.decision_event (auction_id proposal)
                 (item_id proposal) proposal decision
                 (if success decision then BID_ACCEPTED else BID_REJECTED)
          /\ ev_auction_id event = auction_id proposal
          /\ ev_item_id event = item_id proposal
          /\ ev_user_id event = user_id decision
          /\ ev_bid_amount event = bid_amount decision
          /\ ev_category event = category proposal
          /\ ev_brand event = brand proposal
          /\ ev_starting_price event = starting_price proposal
          /\ ev_max_price event = max_price proposal
          /\ decision_reason event = reason decision
          /\ event_type event
             = (if success decision then "bid_accepted" else "bid_rejected")
                 %string
          /\ extra_data event
             = Some (JObj
                  [ ("proposal",
                     JObj [ ("item_id", JStr (item_id proposal));
                            ("category", JStr (category proposal));
                            ("brand", JStr (brand proposal));
                            ("starting_price", JNum (starting_price proposal));
                            ("max_price", JNum (max_price proposal));
                            ("auction_id", JStr (auction_id proposal)) ]);
                    ("decision",
                     JObj [ ("success", JBool (success decision));
                            ("user_id",
                             match user_id decision with
                             | Some user => JInt user
                             | None => JNull
                             end);
                            ("bid_amount",
                             match bid_amount decision with
                             | Some amount => JNum amount
                             | None => JNull
                             end);
                            ("reason",
                             match reason decision with
                             | Some text => JStr text
                             | None => JNull
                             end) ]) ]%string)
          /\ match commit_fault db with
             | None =>
                 auction_events db'
                 = auction_events db ++ session_new db ++ [event]
             | Some _ => auction_events db' = auction_events db
             end).
Proof.
  intro B. destruct (evaluate_auction_total proposal db) as (decision & E).
  exists decision.
  unfold Routes.evaluate_auction, try_except, bind. rewrite B.
  cbn [lift ret]. unfold Routes.decide_and_record, bind. rewrite E.
  cbn [fst].
  rewrite store_auction_event_run. cbn [log commit_fault].
  destruct (commit_fault db) as [msg|]; eexists;
    (split; [reflexivity|]); (split; [reflexivity|]); eexists;
    (split;
     [cbn [oplog log]; rewrite <- ?app_assoc; reflexivity|]);
    (split; [reflexivity|]);
    do 9 (split; [reflexivity|]);
    (split; [cbn; destruct (success decision); reflexivity|]);
    (split; [reflexivity|]);
    cbn [auction_events session_new log]; reflexivity.
Qed.

End Historisation.

Lemma evaluate_records_one_event_witness :
  Routes.build_proposal Samples.no_float Samples.uppercase_form
  = inr (inr Samples.robe_dior_2000)
  /\
  exists decision db',
    fst (DecisionEngine.evaluate_auction Samples.robe_dior_2000 Samples.read_fault_db) = inr decision
    /\ Routes.evaluate_auction Samples.no_float Samples.uppercase_form Samples.read_fault_db
       = (inr (Routes.decision_response Samples.robe_dior_2000 decision), db')
    /\ (exists event,
          oplog db'
          = oplog Samples.read_fault_db
            ++ [OpQuery; OpAdd event; OpCommit]
            ++ match commit_fault Samples.read_fault_db with
               | None => []
               | Some _ => [OpRollback]
               end
          /\ event
             = DataWarehouseService.decision_event (auction_id Samples.robe_dior_2000)
                 (item_id Samples.robe_dior_2000) Samples.robe_dior_2000 decision
                 (if success decision then BID_ACCEPTED else BID_REJECTED)
          /\ ev_auction_id event = auction_id Samples.robe_dior_2000
          /\ ev_item_id event = item_id Samples.robe_dior_2000
          /\ ev_user_id event = user_id decision
          /\ ev_bid_amount event = bid_amount decision
          /\ ev_category event = category Samples.robe_dior_2000
          /\ ev_brand event = brand Samples.robe_dior_2000
          /\ ev_starting_price event = starting_price Samples.robe_dior_2000
          /\ ev_max_price event = max_price Samples.robe_dior_2000
          /\ decision_reason event = reason decision
          /\ event_type event
             = (if success decision then "bid_accepted" else "bid_rejected")
                 %string
          /\ extra_data event
             = Some (JObj
                  [ ("proposal",
                     JObj [ ("item_id", JStr (item_id Samples.robe_dior_2000));
                            ("category", JStr (category Samples.robe_dior_2000));
                            ("brand", JStr (brand Samples.robe_dior_2000));
                            ("starting_price", JNum (starting_price Samples.robe_dior_2000));
                            ("max_price", JNum (max_price Samples.robe_dior_2000));
                            ("auction_id", JStr (auction_id Samples.robe_dior_2000)) ]);
                    ("decision",
                     JObj [ ("success", JBool (success decision));
                            ("user_id",
                             match user_id decision with
                             | Some user => JInt user
                             | None => JNull
                             end);
                            ("bid_amount",
                             match bid_amount decision with
                             | Some amount => JNum amount
                             | None => JNull
                             end);
                            ("reason",
                             match reason decision with
                             | Some text => JStr text
                             | None => JNull
                             end) ]) ]%string)
          /\ match commit_fault Samples.read_fault_db with
             | None =>
                 auction_events db'
                 = auction_events Samples.read_fault_db ++ session_new Samples.read_fault_db ++ [event]
             | Some _ => auction_events db' = auction_events Samples.read_fault_db
             end).
Proof.
  split; [vm_compute; reflexivity|].
  apply (evaluate_records_one_event Samples.no_float Samples.uppercase_form
           (proposal := Samples.robe_dior_2000) Samples.read_fault_db).
  vm_compute; reflexivity.
Defined.

(** A decision that failed for a technical reason is recorded as a
    rejected bid. *)
Example technical_error_is_recorded :
  map event_type
    (auction_events
       (snd (Routes.evaluate_auction Samples.no_float Samples.uppercase_form
               Samples.read_fault_db)))
  = ["bid_rejected"%string]
  /\ map decision_reason
       (auction_events
          (snd (Routes.evaluate_auction Samples.no_float
                  Samples.uppercase_form Samples.read_fault_db)))
     = [Some "Erreur technique: Database error"%string].
Proof. split; vm_compute; reflexivity. Qed.

(** * Further properties *)

(** ** Matching, continued *)

Section MatchingEdges.

#[local] Open Scope string_scope.

Lemma lower_idem (s : string) : lower (lower s) = lower s.
Proof.
  induction s as [|c s IH]; [reflexivity|].
  cbn [lower]. rewrite SqlLike.lower_ascii_idem, IH. reflexivity.
Qed.

Lemma ilike_everything (column : string) : ilike column "%%" = true.
Proof.
  unfold ilike. change (lower "%%") with "%%".
  rewrite SqlLike.like_percent_unfold, SqlLike.like_percent_all.
  reflexivity.
Qed.

(** A proposal whose category and brand are empty strings matches
    every category and brand: the filter keeps exactly the active
    preferences whose budget covers the starting price.  (The handler
    only checks that the keys are present, so it lets such a proposal
    through.) *)
Theorem empty_tags_match_every_preference (item auction : string)
  (starting maxp : float) (p : UserPreference) :
  DecisionEngine.preference_filter
    {| item_id := item;
       category := "";
       brand := "";
       starting_price := starting;
       max_price := maxp;
       auction_id := auction |} p
  = PyFloat.ge (max_budget p) starting && is_active p.
Proof.
  unfold DecisionEngine.preference_filter. cbn [category brand starting_price].
  change ("%" ++ "" ++ "%") with "%%". rewrite !ilike_everything.
  destruct (is_active p); reflexivity.
Qed.

(** The filter reads the category and the brand of both sides up to
    letter case: two proposals, and two preferences, that differ only in
    the case of these texts are filtered alike. *)
Theorem matching_ignores_letter_case (proposal proposal' : AuctionProposal)
  (p p' : UserPreference) :
  lower (category proposal) = lower (category proposal') ->
  lower (brand proposal) = lower (brand proposal') ->
  starting_price proposal = starting_price proposal' ->
  lower (pref_category p) = lower (pref_category p') ->
  lower (pref_brand p) = lower (pref_brand p') ->
  max_budget p = max_budget p' ->
  is_active p = is_active p' ->
  DecisionEngine.preference_filter proposal p
  = DecisionEngine.preference_filter proposal' p'.
Proof.
  intros Hc Hb Hs Hpc Hpb Hm Ha. unfold DecisionEngine.preference_filter.
  rewrite !SqlLike.ilike_pattern, Hc, Hb, Hs, Hpc, Hpb, Hm, Ha.
  reflexivity.
Qed.

Lemma matching_ignores_letter_case_witness :
  lower (category MoreSamples.ROBE_DIOR_2000)
  = lower (category Samples.robe_dior_2000)
  /\ lower (brand MoreSamples.ROBE_DIOR_2000)
     = lower (brand Samples.robe_dior_2000)
  /\ starting_price MoreSamples.ROBE_DIOR_2000
     = starting_price Samples.robe_dior_2000
  /\ lower (pref_category MoreSamples.alice_robe)
     = lower (pref_category MoreSamples.alice_robe)
  /\ lower (pref_brand MoreSamples.alice_robe)
     = lower (pref_brand MoreSamples.alice_robe)
  /\ max_budget MoreSamples.alice_robe = max_budget MoreSamples.alice_robe
  /\ is_active MoreSamples.alice_robe = is_active MoreSamples.alice_robe
  /\ DecisionEngine.preference_filter MoreSamples.ROBE_DIOR_2000
       MoreSamples.alice_robe
     = DecisionEngine.preference_filter Samples.robe_dior_2000
         MoreSamples.alice_robe.
Proof.
  repeat (split; [reflexivity|]).
  apply (@matching_ignores_letter_case MoreSamples.ROBE_DIOR_2000
           Samples.robe_dior_2000 MoreSamples.alice_robe
           MoreSamples.alice_robe); reflexivity.
Defined.

End MatchingEdges.

Lemma preference_filter_without_wildcards_witness :
  wildcard_free (category Samples.robe_dior_2000) = true
  /\ wildcard_free (brand Samples.robe_dior_2000) = true
  /\ DecisionEngine.preference_filter Samples.robe_dior_2000
       MoreSamples.alice_robe
     = contains_ci (category Samples.robe_dior_2000)
         (pref_category MoreSamples.alice_robe)
       && contains_ci (brand Samples.robe_dior_2000)
            (pref_brand MoreSamples.alice_robe)
       && PyFloat.ge (max_budget MoreSamples.alice_robe)
            (starting_price Samples.robe_dior_2000)
       && is_active MoreSamples.alice_robe.
Proof.
  split; [reflexivity|]. split; [reflexivity|].
  apply (@preference_filter_without_wildcards Samples.robe_dior_2000
           MoreSamples.alice_robe); reflexivity.
Defined.

Lemma preference_filter_of_containment_witness :
  is_active MoreSamples.alice_robe = true
  /\ contains_ci (category Samples.robe_dior_2000)
       (pref_category MoreSamples.alice_robe) = true
  /\ contains_ci (brand Samples.robe_dior_2000)
       (pref_brand MoreSamples.alice_robe) = true
  /\ PyFloat.ge (max_budget MoreSamples.alice_robe)
       (starting_price Samples.robe_dior_2000) = true
  /\ DecisionEngine.preference_filter Samples.robe_dior_2000
       MoreSamples.alice_robe = true.
Proof.
  repeat (split; [vm_compute; reflexivity|]).
  apply (@preference_filter_of_containment Samples.robe_dior_2000
           MoreSamples.alice_robe); vm_compute; reflexivity.
Defined.

Lemma inactive_never_candidate_witness :
  is_active MoreSamples.claire_jupe = false
  /\ ~ In MoreSamples.claire_jupe
         (candidates
            (Samples.proposal "jupe" "louis_vuitton"
               (PyFloat.decimal 100 0) (PyFloat.decimal 800 0))
            Samples.sample_db).
Proof.
  split; [reflexivity|].
  apply (@inactive_never_candidate
           (Samples.proposal "jupe" "louis_vuitton"
              (PyFloat.decimal 100 0) (PyFloat.decimal 800 0))
           MoreSamples.claire_jupe Samples.sample_db).
  reflexivity.
Defined.

(** ** The engine, continued *)

Section EngineEdges.

Variable proposal : AuctionProposal.
Variable db : Database.

(** A successful decision names the user of a row of the table that is
    active, whose budget covers the starting price and whose category
    and brand match the patterns of the proposal. *)
Theorem decision_names_an_eligible_preference (decision : BidDecision)
  (db' : Database) :
  DecisionEngine.evaluate_auction proposal db = (inr decision, db') ->
  success decision = true ->
  exists pref,
    In pref (user_preferences db)
    /\ user_id decision = Some (pref_user_id pref)
    /\ is_active pref = true
    /\ PyFloat.le (starting_price proposal) (max_budget pref) = true
    /\ ilike (pref_category pref) ("%" ++ category proposal ++ "%") = true
    /\ ilike (pref_brand pref) ("%" ++ brand proposal ++ "%") = true.
Proof.
  intros E S. destruct (read_fault db) as [detail|] eqn:F.
  - rewrite (evaluate_auction_fault proposal db F) in E.
    injection E as <- _. discriminate S.
  - destruct (candidates proposal db) as [|first rest] eqn:C.
    + rewrite (evaluate_auction_no_match proposal db F C) in E.
      injection E as <- _. discriminate S.
    + rewrite (evaluate_auction_match proposal db F C) in E.
      injection E as <- _.
      assert (Hnan : forall p, In p (first :: rest) ->
                               PyFloat.is_nan (max_budget p) = false).
      { intros p Hp. apply (candidates_budget_not_nan proposal db).
        rewrite C. exact Hp. }
      destruct (@max_from_first_greatest _ max_budget rest first Hnan)
        as (before & after & Eq & _ & _).
      remember (max_from max_budget first rest) as best eqn:Ebest.
      assert (Hin : In best (candidates proposal db)).
      { rewrite C, Eq. apply in_or_app. right. left. reflexivity. }
      apply candidates_In in Hin as [Hrow Hf].
      unfold DecisionEngine.preference_filter in Hf.
      apply andb_true_iff in Hf as [Hf Ha].
      apply andb_true_iff in Hf as [Hf Hg].
      apply andb_true_iff in Hf as [Hc Hb].
      exists best. repeat split; trivial.
      * destruct (is_active best); [reflexivity|discriminate Ha].
      * rewrite <- FloatOrder.ge_le. exact Hg.
Qed.

(** The engine succeeds exactly when the storage layer answers and at
    least one preference passes the filter. *)
Theorem succeeds_exactly_on_a_candidate :
  exists decision db',
    DecisionEngine.evaluate_auction proposal db = (inr decision, db')
    /\ (success decision = true
        <-> read_fault db = None /\ candidates proposal db <> []).
Proof.
  destruct (read_fault db) as [detail|] eqn:F.
  - eexists. eexists. rewrite (evaluate_auction_fault proposal db F).
    split; [reflexivity|]. cbn. split; [discriminate|].
    intros [H _]. discriminate H.
  - destruct (candidates proposal db) as [|first rest] eqn:C.
    + eexists. eexists. rewrite (evaluate_auction_no_match proposal db F C).
      split; [reflexivity|]. cbn. split; [discriminate|].
      intros [_ H]. congruence.
    + eexists. eexists. rewrite (evaluate_auction_match proposal db F C).
      split; [reflexivity|]. cbn. split; [|reflexivity].
      intros _. split; [reflexivity|discriminate].
Qed.

(** The engine only reads: it asks the session for one query and leaves
    the tables, the pending objects and the faults ahead as they were,
    on every path. *)
Theorem engine_only_reads :
  exists decision db',
    DecisionEngine.evaluate_auction proposal db = (inr decision, db')
    /\ user_preferences db' = user_preferences db
    /\ auction_events db' = auction_events db
    /\ session_new db' = session_new db
    /\ read_fault db' = read_fault db
    /\ commit_fault db' = commit_fault db
    /\ oplog db' = oplog db ++ [OpQuery].
Proof.
  destruct (evaluate_auction_total proposal db) as (decision & E).
  exists decision, (log OpQuery db). split; [exact E|]. repeat split.
Qed.

End EngineEdges.

Lemma decision_names_an_eligible_preference_witness :
  DecisionEngine.evaluate_auction Samples.robe_dior_2000 Samples.sample_db
  = (inr {| success := true;
            user_id := Some 1%Z;
            bid_amount := Some (PyFloat.decimal 2100 0);
            reason := Some "Enchère optimale pour l'utilisateur 1"%string |},
     log OpQuery Samples.sample_db)
  /\ true = true
  /\ exists pref,
       In pref (user_preferences Samples.sample_db)
       /\ Some 1%Z = Some (pref_user_id pref)
       /\ is_active pref = true
       /\ PyFloat.le (starting_price Samples.robe_dior_2000) (max_budget pref)
          = true
       /\ ilike (pref_category pref)
            ("%" ++ category Samples.robe_dior_2000 ++ "%") = true
       /\ ilike (pref_brand pref)
            ("%" ++ brand Samples.robe_dior_2000 ++ "%") = true.
Proof.
  split; [vm_compute; reflexivity|]. split; [reflexivity|].
  apply (@decision_names_an_eligible_preference Samples.robe_dior_2000
           Samples.sample_db
           {| success := true;
              user_id := Some 1%Z;
              bid_amount := Some (PyFloat.decimal 2100 0);
              reason := Some "Enchère optimale pour l'utilisateur 1"%string |}
           (log OpQuery Samples.sample_db)).
  - vm_compute; reflexivity.
  - reflexivity.
Defined.

(** ** The caps before rounding *)

Module RoundingFacts.

Import PyFloat.

Lemma shr_1_nonneg (mrs : shr_record) :
  (0 <= shr_m mrs)%Z -> (0 <= shr_m (shr_1 mrs))%Z.
Proof.
  destruct mrs as [m r s]. cbn [shr_m].
  destruct m as [|[q|q|]|[q|q|]]; cbn; lia.
Qed.

Lemma iter_shr_1_nonneg (n : positive) :
  forall mrs, (0 <= shr_m mrs)%Z -> (0 <= shr_m (iter_pos shr_1 n mrs))%Z.
Proof.
  induction n as [n IH|n IH|]; intros mrs H; cbn [iter_pos].
  - apply IH, IH, shr_1_nonneg, H.
  - apply IH, IH, H.
  - apply shr_1_nonneg, H.
Qed.

Lemma shr_fexp_nonneg (m e : Z) (l : location) :
  (0 <= m)%Z -> (0 <= shr_m (fst (shr_fexp prec emax m e l)))%Z.
Proof.
  intro H. unfold shr_fexp, shr.
  assert (H0 : (0 <= shr_m (shr_record_of_loc m l))%Z).
  { destruct l as [|[]]; exact H. }
  destruct (fexp prec emax (Zdigits2 m + e) - e)%Z; cbn [fst]; trivial.
  apply iter_shr_1_nonneg, H0.
Qed.

Lemma round_nearest_even_nonneg (m : Z) (l : location) :
  (0 <= m)%Z -> (0 <= round_nearest_even m l)%Z.
Proof.
  intro H. destruct l as [|[]]; cbn; try destruct (Z.even m); lia.
Qed.

(** Rounding a mantissa that is not negative never yields a NaN. *)
Lemma binary_round_aux_not_nan (s : bool) (m e : Z) (l : location) :
  (0 <= m)%Z -> is_nan (binary_round_aux prec emax s m e l) = false.
Proof.
  intro H. unfold binary_round_aux.
  pose proof (shr_fexp_nonneg e l H) as H1.
  destruct (shr_fexp prec emax m e l) as [mrs' e'].
  cbn [fst] in H1.
  pose proof (shr_fexp_nonneg e' loc_Exact
                (round_nearest_even_nonneg (loc_of_shr_record mrs') H1)) as H2.
  destruct (shr_fexp prec emax
              (round_nearest_even (shr_m mrs') (loc_of_shr_record mrs'))
              e' loc_Exact) as [mrs'' e''].
  cbn [fst] in H2. destruct (shr_m mrs'') as [|q|q]; [reflexivity| |lia].
  destruct (e'' <=? emax - prec)%Z; reflexivity.
Qed.

(** The product of a float that is not a NaN by a finite float that is
    not zero is not a NaN. *)
Lemma mul_finite_not_nan (x : float) (s : bool) (m : positive) (e : Z) :
  is_nan x = false -> is_nan (mul x (S754_finite s m e)) = false.
Proof.
  destruct x as [sx|sx| |sx mx ex]; intro H; try discriminate H;
    try reflexivity.
  unfold mul, SFmul. apply binary_round_aux_not_nan. lia.
Qed.

Lemma min_le_right (a b : float) :
  is_nan a = false -> is_nan b = false -> le (min a b) b = true.
Proof.
  intros Na Nb. unfold min. destruct (lt b a) eqn:L.
  - apply FloatOrder.le_refl, Nb.
  - apply FloatOrder.not_gt_le; trivial. rewrite FloatOrder.gt_lt. exact L.
Qed.

Lemma min_le_left (a b : float) :
  is_nan a = false -> is_nan b = false -> le (min a b) a = true.
Proof.
  intros Na Nb. unfold min. destruct (lt b a) eqn:L.
  - apply FloatOrder.lt_le, L.
  - apply FloatOrder.le_refl, Na.
Qed.

Lemma min_not_nan (a b : float) :
  is_nan a = false -> is_nan b = false -> is_nan (min a b) = false.
Proof. intros Na Nb. unfold min. destruct (lt b a); assumption. Qed.

End RoundingFacts.

(** Before it is rounded, the bid of a successful decision exceeds
    neither the budget of the selected preference nor the price ceiling,
    as soon as the ceiling is a number: the amount of the decision is
    the rounding of a value within both caps. *)
Theorem unrounded_bid_within_caps (proposal : AuctionProposal)
  (db : Database) (first : UserPreference) (rest : list UserPreference) :
  read_fault db = None ->
  candidates proposal db = first :: rest ->
  PyFloat.is_nan (max_price proposal) = false ->
  exists decision db' best capped,
    DecisionEngine.evaluate_auction proposal db = (inr decision, db')
    /\ In best (candidates proposal db)
    /\ user_id decision = Some (pref_user_id best)
    /\ bid_amount decision = Some (PyFloat.round capped 2)
    /\ PyFloat.le capped (max_budget best) = true
    /\ PyFloat.le capped (max_price proposal) = true.
Proof.
  intros F C Nc.
  assert (Hnan : forall p, In p (first :: rest) ->
                           PyFloat.is_nan (max_budget p) = false).
  { intros p Hp. apply (candidates_budget_not_nan proposal db).
    rewrite C. exact Hp. }
  destruct (@max_from_first_greatest _ max_budget rest first Hnan)
    as (before & after & Eq & _ & _).
  remember (max_from max_budget first rest) as best eqn:Ebest.
  assert (Hin : In best (candidates proposal db)).
  { rewrite C, Eq. apply in_or_app. right. left. reflexivity. }
  assert (Nb : PyFloat.is_nan (max_budget best) = false).
  { apply (candidates_budget_not_nan proposal db), Hin. }
  assert (Ns : PyFloat.is_nan (starting_price proposal) = false).
  { apply candidates_In in Hin as [_ Hf].
    unfold DecisionEngine.preference_filter in Hf.
    apply andb_true_iff in Hf as [Hf _]. apply andb_true_iff in Hf as [_ Hg].
    rewrite FloatOrder.ge_le in Hg. apply FloatOrder.le_not_nan in Hg.
    apply Hg. }
  assert (Na : PyFloat.is_nan
                 (PyFloat.mul (starting_price proposal)
                    (PyFloat.decimal 105 2)) = false).
  { change (PyFloat.decimal 105 2)
      with (S754_finite false 4728779608739021 (-52)).
    apply RoundingFacts.mul_finite_not_nan, Ns. }
  eexists. eexists. exists best. eexists.
  rewrite (evaluate_auction_match proposal db F C), <- Ebest.
  split; [reflexivity|]. split; [exact Hin|]. split; [reflexivity|].
  split; [reflexivity|]. unfold PyFloat.min3. split.
  - apply FloatOrder.le_trans
      with (PyFloat.min
              (PyFloat.mul (starting_price proposal) (PyFloat.decimal 105 2))
              (max_budget best)).
    + apply RoundingFacts.min_le_left; trivial.
      apply RoundingFacts.min_not_nan; trivial.
    + apply RoundingFacts.min_le_right; trivial.
  - apply RoundingFacts.min_le_right; trivial.
    apply RoundingFacts.min_not_nan; trivial.
Qed.

Lemma unrounded_bid_within_caps_witness :
  read_fault Samples.subcent_db = None
  /\ candidates Samples.subcent_proposal Samples.subcent_db
     = [Samples.preference 1 1 "robe" "dior" (PyFloat.decimal 10 0) true]
  /\ PyFloat.is_nan (max_price Samples.subcent_proposal) = false
  /\ exists decision db' best capped,
       DecisionEngine.evaluate_auction Samples.subcent_proposal
         Samples.subcent_db = (inr decision, db')
       /\ In best (candidates Samples.subcent_proposal Samples.subcent_db)
       /\ user_id decision = Some (pref_user_id best)
       /\ bid_amount decision = Some (PyFloat.round capped 2)
       /\ PyFloat.le capped (max_budget best) = true
       /\ PyFloat.le capped (max_price Samples.subcent_proposal) = true.
Proof.
  split; [reflexivity|]. split; [vm_compute; reflexivity|].
  split; [reflexivity|].
  apply (@unrounded_bid_within_caps Samples.subcent_proposal
           Samples.subcent_db
           (Samples.preference 1 1 "robe" "dior" (PyFloat.decimal 10 0) true)
           []).
  - reflexivity.
  - vm_compute; reflexivity.
  - reflexivity.
Defined.

(** ** The evaluation handler, continued *)

Section EvaluateEdges.

#[local] Open Scope string_scope.

Variable float_of_str : string -> string + float.

(** An early return of the validation is an error of status 400. *)
Lemma build_proposal_early_return (data : Routes.EvaluateForm)
  (response : Routes.Response) :
  Routes.build_proposal float_of_str data = inr (inl response) ->
  exists msg, response = (Routes.ErrorBody msg, 400%Z).
Proof.
  unfold Routes.build_proposal.
  destruct (Routes.evaluate_form_empty data);
    [intro H; injection H as <-; eexists; reflexivity|].
  destruct (Routes.ef_item_id data), (Routes.ef_category data),
    (Routes.ef_brand data), (Routes.ef_starting_price data) as [sp|],
    (Routes.ef_max_price data) as [mp|], (Routes.ef_auction_id data);
    try (intro H; injection H as <-; eexists; reflexivity).
  destruct (Routes.py_float float_of_str sp); [discriminate|].
  destruct (Routes.py_float float_of_str mp); discriminate.
Qed.

(** A payload that yields no proposal is answered with status 400 or
    500 and the handler asks nothing of the session: no query, no write. *)
Theorem rejected_payload_leaves_database (data : Routes.EvaluateForm)
  (db : Database) :
  (forall proposal,
      Routes.build_proposal float_of_str data <> inr (inr proposal)) ->
  exists body status,
    Routes.evaluate_auction float_of_str data db = (inr (body, status), db)
    /\ (status = 400%Z \/ status = 500%Z).
Proof.
  intro N. unfold Routes.evaluate_auction, try_except, bind.
  destruct (Routes.build_proposal float_of_str data)
    as [[msg|msg]|[response|proposal]] eqn:B; cbn.
  - eexists. eexists. split; [reflexivity|]. left. reflexivity.
  - eexists. eexists. split; [reflexivity|]. right. reflexivity.
  - destruct (build_proposal_early_return data B) as (msg & ->).
    eexists. eexists. split; [reflexivity|]. left. reflexivity.
  - destruct (N proposal). reflexivity.
Qed.

(** A payload that lacks a required key is answered with status 400:
    with the text [Payload JSON requis] when it has no key at all, and
    otherwise with the list of the missing keys, in the order the handler
    requires them.  The database is not touched. *)
Theorem missing_field_is_400 (data : Routes.EvaluateForm) (db : Database) :
  Routes.missing_fields (Routes.evaluate_required data) <> [] ->
  Routes.evaluate_auction float_of_str data db
  = (inr (Routes.ErrorBody
            (if Routes.evaluate_form_empty data
             then "Payload JSON requis"
             else "Champs manquants: "
                  ++ Routes.repr_fields
                       (Routes.missing_fields (Routes.evaluate_required data))),
          400%Z),
     db).
Proof.
  intro N.
  unfold Routes.evaluate_auction, try_except, bind, Routes.build_proposal.
  destruct (Routes.evaluate_form_empty data); [reflexivity|].
  unfold Routes.evaluate_required in N |- *.
  destruct (Routes.ef_item_id data), (Routes.ef_category data),
    (Routes.ef_brand data), (Routes.ef_starting_price data),
    (Routes.ef_max_price data), (Routes.ef_auction_id data);
    try reflexivity.
  destruct N. reflexivity.
Qed.

(** In a payload whose category and brand are texts, a starting price
    given as a text that [float] refuses is answered with status 400 and
    the message of the refusal, whatever the other price; the database is
    not touched. *)
Theorem unparsable_price_is_400 (item cat br auction s msg : string)
  (maxp : jvalue) (other : bool) (db : Database) :
  float_of_str s = inl msg ->
  Routes.evaluate_auction float_of_str
    {| Routes.ef_item_id := Some item;
       Routes.ef_category := Some cat;
       Routes.ef_brand := Some br;
       Routes.ef_starting_price := Some (JStr s);
       Routes.ef_max_price := Some maxp;
       Routes.ef_auction_id := Some auction;
       Routes.ef_other := other |} db
  = (inr (Routes.ErrorBody ("Données invalides: " ++ msg), 400%Z), db).
Proof.
  intro P.
  unfold Routes.evaluate_auction, try_except, bind, Routes.build_proposal.
  cbn. rewrite P. reflexivity.
Qed.

(** A price given as [null] is not reported as invalid data: the
    conversion raises a type error, which the handler answers with the
    internal error of status 500, whatever the other price is.  The
    database is not touched. *)
Theorem null_price_is_500 (item cat br auction : string)
  (maxp : jvalue) (other : bool) (db : Database) :
  Routes.evaluate_auction float_of_str
    {| Routes.ef_item_id := Some item;
       Routes.ef_category := Some cat;
       Routes.ef_brand := Some br;
       Routes.ef_starting_price := Some JNull;
       Routes.ef_max_price := Some maxp;
       Routes.ef_auction_id := Some auction;
       Routes.ef_other := other |} db
  = (inr (Routes.ErrorBody "Erreur interne du serveur", 500%Z), db).
Proof. reflexivity. Qed.

(** On every payload and from a fresh session the handler returns a
    response, of status 200, 400, 422 or 500, never touches the
    preferences, leaves the session fresh and the ledger extended by at
    most one event: no row is changed or removed. *)
Theorem evaluate_handler_effects (data : Routes.EvaluateForm)
  (db : Database) :
  session_new db = [] ->
  exists body status db' added,
    Routes.evaluate_auction float_of_str data db = (inr (body, status), db')
    /\ In status [200; 400; 422; 500]%Z
    /\ user_preferences db' = user_preferences db
    /\ session_new db' = []
    /\ auction_events db' = (auction_events db ++ added)%list
    /\ (List.length added <= 1)%nat.
Proof.
  intro S.
  destruct (Routes.build_proposal float_of_str data)
    as [[msg|msg]|[response|proposal]] eqn:B.
  - eexists. eexists. exists db, [].
    unfold Routes.evaluate_auction, try_except, bind. rewrite B, app_nil_r.
    cbn. repeat split; auto.
  - eexists. eexists. exists db, [].
    unfold Routes.evaluate_auction, try_except, bind. rewrite B, app_nil_r.
    cbn. repeat split; auto.
  - destruct (build_proposal_early_return data B) as (msg & ->).
    eexists. eexists. exists db, [].
    unfold Routes.evaluate_auction, try_except, bind. rewrite B, app_nil_r.
    cbn. repeat split; auto.
  - destruct (evaluate_auction_total proposal db) as (decision & E).
    unfold Routes.evaluate_auction, try_except, bind. rewrite B.
    cbn [lift ret]. unfold Routes.decide_and_record, bind. rewrite E.
    rewrite store_auction_event_run. cbn [log commit_fault ret].
    exists (fst (Routes.decision_response proposal decision)),
      (snd (Routes.decision_response proposal decision)).
    rewrite <- surjective_pairing.
    assert (St : In (snd (Routes.decision_response proposal decision))
                   [200; 400; 422; 500]%Z).
    { unfold Routes.decision_response.
      destruct (success decision); cbn; tauto. }
    destruct (commit_fault db) as [msg|].
    + eexists. exists []. split; [reflexivity|]. cbn.
      rewrite app_nil_r. repeat split; auto.
    + eexists. eexists. split; [reflexivity|].
      cbn [user_preferences session_new auction_events log].
      rewrite S. cbn [app]. repeat split; auto.
Qed.

End EvaluateEdges.

Lemma rejected_payload_leaves_database_witness :
  (forall proposal,
      Routes.build_proposal Samples.no_float MoreSamples.invalid_price_form
      <> inr (inr proposal))
  /\ exists body status,
       Routes.evaluate_auction Samples.no_float MoreSamples.invalid_price_form
         Samples.sample_db = (inr (body, status), Samples.sample_db)
       /\ (status = 400%Z \/ status = 500%Z).
Proof.
  split; [intro proposal; vm_compute; discriminate|].
  apply (@rejected_payload_leaves_database Samples.no_float
           MoreSamples.invalid_price_form Samples.sample_db).
  intro proposal. vm_compute. discriminate.
Defined.

Lemma missing_field_is_400_witness :
  Routes.missing_fields (Routes.evaluate_required MoreSamples.two_fields_form)
  <> []
  /\ Routes.evaluate_auction Samples.no_float MoreSamples.two_fields_form
       Samples.sample_db
     = (inr (Routes.ErrorBody
               "Champs manquants: ['brand', 'starting_price', 'max_price', 'auction_id']"%string,
             400%Z),
        Samples.sample_db).
Proof.
  split; [vm_compute; discriminate|].
  apply (@missing_field_is_400 Samples.no_float MoreSamples.two_fields_form
           Samples.sample_db).
  vm_compute. discriminate.
Defined.

Lemma unparsable_price_is_400_witness :
  Samples.no_float "invalid_price"
  = inl "could not convert string to float: 'invalid_price'"%string
  /\ Routes.evaluate_auction Samples.no_float MoreSamples.invalid_price_form
       Samples.sample_db
     = (inr (Routes.ErrorBody
               "Données invalides: could not convert string to float: 'invalid_price'"%string,
             400%Z),
        Samples.sample_db).
Proof.
  split; [reflexivity|].
  apply (@unparsable_price_is_400 Samples.no_float "item_123" "robe" "dior"
           "auction_123" "invalid_price"
           "could not convert string to float: 'invalid_price'"
           (JNum (PyFloat.decimal 2800 0)) false Samples.sample_db).
  reflexivity.
Defined.

Lemma evaluate_handler_effects_witness :
  session_new Samples.sample_db = []
  /\ exists body status db' added,
       Routes.evaluate_auction Samples.no_float MoreSamples.robe_form
         Samples.sample_db = (inr (body, status), db')
       /\ In status [200; 400; 422; 500]%Z
       /\ user_preferences db' = user_preferences Samples.sample_db
       /\ session_new db' = []
       /\ auction_events db' = auction_events Samples.sample_db ++ added
       /\ (List.length added <= 1)%nat.
Proof.
  split; [reflexivity|].
  apply (@evaluate_handler_effects Samples.no_float MoreSamples.robe_form
           Samples.sample_db).
  reflexivity.
Defined.

(** ** The outcome handler, continued *)

Section OutcomeEdges.

Lemma find_app {A : Type} (f : A -> bool) (l1 l2 : list A) :
  find f (l1 ++ l2)
  = match find f l1 with Some x => Some x | None => find f l2 end.
Proof.
  induction l1 as [|x l1 IH]; [reflexivity|].
  cbn [app find]. destruct (f x); [reflexivity|exact IH].
Qed.

(** The handler on a payload that names the auction, the item and the
    flag, path by path. *)
Lemma auction_result_run (db : Database) (auction item : string)
  (won : jvalue) (final_price winner_info : option jvalue) (other : bool) :
  Routes.auction_result
    {| Routes.rf_auction_id := Some auction;
       Routes.rf_item_id := Some item;
       Routes.rf_won := Some won;
       Routes.rf_final_price := final_price;
       Routes.rf_winner_info := winner_info;
       Routes.rf_other := other |} db
  = match read_fault db with
    | Some _ =>
        (inr (Routes.ErrorBody "Erreur interne du serveur"%string, 500%Z),
         session_rollback_state (log OpQuery db))
    | None =>
        match find (Routes.is_accepted_for auction item) (auction_events db)
        with
        | None =>
            (inr (Routes.ErrorBody "Enchère originale non trouvée"%string,
                  404%Z),
             log OpQuery db)
        | Some original =>
            match commit_fault db with
            | Some _ =>
                (inr (Routes.ErrorBody "Erreur interne du serveur"%string,
                      500%Z),
                 session_rollback_state
                   (log OpCommit
                      (session_add_state
                         (Routes.result_event auction item won final_price
                            winner_info original)
                         (log OpQuery db))))
            | None =>
                (inr (Routes.RecordedBody
                        "Résultat enregistré avec succès"%string auction,
                      200%Z),
                 session_commit_state
                   (session_add_state
                      (Routes.result_event auction item won final_price
                         winner_info original)
                      (log OpQuery db)))
            end
        end
    end.
Proof.
  destruct db as [prefs events pending rfault cfault ops].
  unfold Routes.auction_result, try_except, bind, query_first_event,
    session_add, session_commit, session_rollback, ret,
    session_rollback_state, session_add_state, session_commit_state.
  cbn [Routes.result_form_empty Routes.rf_auction_id Routes.rf_item_id
         Routes.rf_won Routes.rf_final_price Routes.rf_winner_info
         Routes.rf_other Routes.present orb negb read_fault auction_events].
  destruct rfault; [reflexivity|].
  destruct (find (Routes.is_accepted_for auction item) events);
    [|reflexivity].
  cbn [log commit_fault]. destruct cfault; reflexivity.
Qed.

End OutcomeEdges.

Section OutcomeHandler.

#[local] Open Scope string_scope.

(** An incomplete notification is answered with status 400 and the
    database is not touched. *)
Lemma result_missing_field_is_400_aux (data : Routes.ResultForm)
  (db : Database) :
  Routes.missing_fields (Routes.result_required data) <> [] ->
  exists msg,
    Routes.auction_result data db = (inr (Routes.ErrorBody msg, 400%Z), db).
Proof.
  intro N. unfold Routes.auction_result, try_except, bind.
  destruct (Routes.result_form_empty data); [eexists; reflexivity|].
  unfold Routes.result_required in N.
  destruct (Routes.rf_auction_id data), (Routes.rf_item_id data),
    (Routes.rf_won data); try (eexists; reflexivity).
  destruct N. reflexivity.
Qed.

(** A notification that lacks the auction, the item or the flag is
    answered with status 400, with the text [Payload JSON requis] when
    it has no key at all and otherwise with the list of the missing
    keys; the ledger is not even read. *)
Theorem result_missing_field_is_400 (data : Routes.ResultForm)
  (db : Database) :
  Routes.missing_fields (Routes.result_required data) <> [] ->
  Routes.auction_result data db
  = (inr (Routes.ErrorBody
            (if Routes.result_form_empty data
             then "Payload JSON requis"
             else "Champs manquants: "
                  ++ Routes.repr_fields
                       (Routes.missing_fields (Routes.result_required data))),
          400%Z),
     db).
Proof.
  intro N. unfold Routes.auction_result, try_except, bind.
  destruct (Routes.result_form_empty data); [reflexivity|].
  unfold Routes.result_required in N |- *.
  destruct (Routes.rf_auction_id data), (Routes.rf_item_id data),
    (Routes.rf_won data); try reflexivity.
  destruct N. reflexivity.
Qed.

(** On every payload and from a fresh session the handler returns a
    response, of status 200, 400, 404 or 500, never touches the
    preferences, leaves the session fresh and the ledger extended by at
    most one event: no row is changed or removed. *)
Theorem result_handler_effects (data : Routes.ResultForm) (db : Database) :
  session_new db = [] ->
  exists body status db' added,
    Routes.auction_result data db = (inr (body, status), db')
    /\ In status [200; 400; 404; 500]%Z
    /\ user_preferences db' = user_preferences db
    /\ session_new db' = []
    /\ auction_events db' = (auction_events db ++ added)%list
    /\ (List.length added <= 1)%nat.
Proof.
  intro S.
  destruct data as [[auction|] [item|] [won|] final_price winner_info other].
  1: { rewrite auction_result_run.
       destruct db as [prefs events pending rfault cfault ops].
       cbn [session_new] in S. subst pending.
       cbn [read_fault auction_events commit_fault].
       destruct rfault.
       - eexists. eexists. eexists. exists [].
         split; [reflexivity|]. cbn. rewrite app_nil_r. repeat split; auto.
       - destruct (find (Routes.is_accepted_for auction item) events).
         + destruct cfault.
           * eexists. eexists. eexists. exists [].
             split; [reflexivity|]. cbn. rewrite app_nil_r.
             repeat split; auto.
           * eexists. eexists. eexists. eexists.
             split; [reflexivity|]. cbn. repeat split; auto.
         + eexists. eexists. eexists. exists [].
           split; [reflexivity|]. cbn. rewrite app_nil_r.
           repeat split; auto. }
  all: match goal with
       | |- context [Routes.auction_result ?d ?b] =>
           destruct (@result_missing_field_is_400_aux d b) as (msg & E);
           [cbn; discriminate|];
           eexists; eexists; exists b, []
       end;
    rewrite E, app_nil_r;
    (split; [reflexivity|]); cbn; repeat split; auto.
Qed.

End OutcomeHandler.

Lemma result_missing_field_is_400_witness :
  Routes.missing_fields (Routes.result_required MoreSamples.auction_only_form)
  <> []
  /\ Routes.auction_result MoreSamples.auction_only_form Samples.ledger_db
     = (inr (Routes.ErrorBody "Champs manquants: ['item_id', 'won']"%string,
             400%Z),
        Samples.ledger_db).
Proof.
  split; [vm_compute; discriminate|].
  apply (@result_missing_field_is_400 MoreSamples.auction_only_form
           Samples.ledger_db).
  vm_compute. discriminate.
Defined.

Lemma result_handler_effects_witness :
  session_new Samples.ledger_db = []
  /\ exists body status db' added,
       Routes.auction_result Samples.won_form Samples.ledger_db
       = (inr (body, status), db')
       /\ In status [200; 400; 404; 500]%Z
       /\ user_preferences db' = user_preferences Samples.ledger_db
       /\ session_new db' = []
       /\ auction_events db' = auction_events Samples.ledger_db ++ added
       /\ (List.length added <= 1)%nat.
Proof.
  split; [reflexivity|].
  apply (@result_handler_effects Samples.won_form Samples.ledger_db).
  reflexivity.
Defined.

(** ** Decisions and their outcomes *)

Section Correlation.

Variable float_of_str : string -> string + float.

Lemma decision_event_is_accepted (proposal : AuctionProposal)
  (decision : BidDecision) (kind : EventType) :
  Routes.is_accepted_for (auction_id proposal) (item_id proposal)
    (DataWarehouseService.decision_event (auction_id proposal)
       (item_id proposal) proposal decision kind)
  = match kind with BID_ACCEPTED => true | _ => false end.
Proof.
  unfold Routes.is_accepted_for. cbn [ev_auction_id ev_item_id event_type
    DataWarehouseService.decision_event].
  rewrite !String.eqb_refl. destruct kind; reflexivity.
Qed.

(** Round trip of an accepted bid.  When nothing faults, a payload that
    yields a proposal with a candidate is answered with a successful
    decision whose event joins the ledger; if the ledger held no accepted
    bid for the auction and item before, a later notification for that
    auction and item is answered with status 200 and records an outcome
    that carries the user and the amount of that decision, and the
    category, brand and prices of the proposal. *)
Theorem accepted_bid_is_found_by_outcome (data : Routes.EvaluateForm)
  (proposal : AuctionProposal) (db : Database) (first : UserPreference)
  (rest : list UserPreference) (won : jvalue)
  (final_price winner_info : option jvalue) (other : bool) :
  session_new db = [] ->
  read_fault db = None ->
  commit_fault db = None ->
  Routes.build_proposal float_of_str data = inr (inr proposal) ->
  candidates proposal db = first :: rest ->
  (forall e, In e (auction_events db) ->
             ~ Routes.accepted_for (auction_id proposal) (item_id proposal) e) ->
  exists decision db1 db2 accepted outcome,
    Routes.evaluate_auction float_of_str data db
    = (inr (Routes.decision_response proposal decision), db1)
    /\ success decision = true
    /\ auction_events db1 = auction_events db ++ [accepted]
    /\ Routes.auction_result
         {| Routes.rf_auction_id := Some (auction_id proposal);
            Routes.rf_item_id := Some (item_id proposal);
            Routes.rf_won := Some won;
            Routes.rf_final_price := final_price;
            Routes.rf_winner_info := winner_info;
            Routes.rf_other := other |} db1
       = (inr (Routes.RecordedBody "Résultat enregistré avec succès"%string
                 (auction_id proposal), 200%Z),
          db2)
    /\ auction_events db2 = auction_events db ++ [accepted; outcome]
    /\ event_type outcome
       = (if truthy won then "bid_won" else "bid_lost")%string
    /\ ev_user_id outcome = user_id decision
    /\ ev_bid_amount outcome = bid_amount decision
    /\ ev_category outcome = category proposal
    /\ ev_brand outcome = brand proposal
    /\ ev_starting_price outcome = starting_price proposal
    /\ ev_max_price outcome = max_price proposal.
Proof.
  intros S F C B Cand N.
  pose proof (evaluate_auction_match proposal db F Cand) as E.
  apply find_no_accepted in N.
  destruct db as [prefs events pending rfault cfault ops].
  cbn [session_new read_fault commit_fault auction_events] in *.
  subst pending rfault cfault.
  eexists. eexists. eexists. eexists. eexists.
  split.
  { unfold Routes.evaluate_auction, try_except, bind. rewrite B.
    cbn [lift ret]. unfold Routes.decide_and_record, bind. rewrite E.
    rewrite store_auction_event_run. cbn [log commit_fault ret success].
    reflexivity. }
  split; [reflexivity|].
  split; [cbn [auction_events session_new app]; reflexivity|].
  rewrite auction_result_run.
  cbn [read_fault auction_events commit_fault session_new app log].
  rewrite find_app, N. cbn [find].
  rewrite decision_event_is_accepted.
  split; [reflexivity|].
  split; [cbn; rewrite <- app_assoc; reflexivity|].
  cbn. destruct (truthy won); repeat split.
Qed.

(** A rejected bid is not found.  When the storage layer answers the
    queries, a payload that yields a proposal with no candidate is
    answered with status 422; if the ledger held no accepted bid for the
    auction and item before, a later notification for them is answered
    with the not-found error of status 404 and records nothing, whether
    or not the rejected decision was committed. *)
Theorem rejected_bid_is_not_found (data : Routes.EvaluateForm)
  (proposal : AuctionProposal) (db : Database) (won : jvalue)
  (final_price winner_info : option jvalue) (other : bool) :
  session_new db = [] ->
  read_fault db = None ->
  Routes.build_proposal float_of_str data = inr (inr proposal) ->
  candidates proposal db = [] ->
  (forall e, In e (auction_events db) ->
             ~ Routes.accepted_for (auction_id proposal) (item_id proposal) e) ->
  exists db1 db2,
    Routes.evaluate_auction float_of_str data db
    = (inr (Routes.RejectedBody (auction_id proposal) (item_id proposal)
              (Some "Aucun utilisateur ne correspond aux critères"%string),
            422%Z),
       db1)
    /\ Routes.auction_result
         {| Routes.rf_auction_id := Some (auction_id proposal);
            Routes.rf_item_id := Some (item_id proposal);
            Routes.rf_won := Some won;
            Routes.rf_final_price := final_price;
            Routes.rf_winner_info := winner_info;
            Routes.rf_other := other |} db1
       = (inr (Routes.ErrorBody "Enchère originale non trouvée"%string,
               404%Z),
          db2)
    /\ auction_events db2 = auction_events db1.
Proof.
  intros S F B Cand N.
  pose proof (evaluate_auction_no_match proposal db F Cand) as E.
  apply find_no_accepted in N.
  destruct db as [prefs events pending rfault cfault ops].
  cbn [session_new read_fault commit_fault auction_events] in *.
  subst pending rfault.
  unfold Routes.evaluate_auction, try_except, bind. rewrite B.
  cbn [lift ret]. unfold Routes.decide_and_record, bind. rewrite E.
  rewrite store_auction_event_run. cbn [log commit_fault ret success].
  destruct cfault as [msg|]; eexists; eexists;
    (split; [reflexivity|]); rewrite auction_result_run;
    cbn [read_fault auction_events commit_fault session_new app log];
    rewrite ?find_app, N; cbn [find];
    rewrite ?decision_event_is_accepted; split; reflexivity.
Qed.

End Correlation.

Section Repeated.

Variable db : Database.
Variables auction item : string.
Variable original : AuctionEvent.

(** Outcomes are not deduplicated.  When nothing faults and [original]
    is the first accepted bid for the auction and item, two
    notifications in a row, whatever their flags, are both answered with
    status 200 and both recorded, each from [original]: a recorded
    outcome does not close the auction. *)
Theorem outcomes_are_not_deduplicated (won won' : jvalue)
  (final_price winner_info final_price' winner_info' : option jvalue)
  (other other' : bool) :
  session_new db = [] ->
  read_fault db = None ->
  commit_fault db = None ->
  Routes.first_accepted auction item (auction_events db) original ->
  exists db1 db2,
    Routes.auction_result
      {| Routes.rf_auction_id := Some auction;
         Routes.rf_item_id := Some item;
         Routes.rf_won := Some won;
         Routes.rf_final_price := final_price;
         Routes.rf_winner_info := winner_info;
         Routes.rf_other := other |} db
    = (inr (Routes.RecordedBody "Résultat enregistré avec succès"%string
              auction, 200%Z), db1)
    /\ Routes.auction_result
         {| Routes.rf_auction_id := Some auction;
            Routes.rf_item_id := Some item;
            Routes.rf_won := Some won';
            Routes.rf_final_price := final_price';
            Routes.rf_winner_info := winner_info';
            Routes.rf_other := other' |} db1
       = (inr (Routes.RecordedBody "Résultat enregistré avec succès"%string
                 auction, 200%Z), db2)
    /\ auction_events db2
       = auction_events db
         ++ [Routes.result_event auction item won final_price winner_info
               original;
             Routes.result_event auction item won' final_price' winner_info'
               original].
Proof.
  intros S F C Ho. apply find_first_accepted in Ho.
  destruct db as [prefs events pending rfault cfault ops].
  cbn [session_new read_fault commit_fault auction_events] in *.
  subst pending rfault cfault.
  eexists. eexists. split.
  { rewrite auction_result_run.
    cbn [read_fault auction_events commit_fault]. rewrite Ho. reflexivity. }
  split.
  { rewrite auction_result_run.
    cbn [read_fault auction_events commit_fault session_commit_state
           session_add_state session_add snd session_new log app].
    rewrite find_app, Ho. reflexivity. }
  cbn. rewrite <- app_assoc. reflexivity.
Qed.

End Repeated.

Lemma accepted_bid_is_found_by_outcome_witness :
  session_new Samples.sample_db = []
  /\ read_fault Samples.sample_db = None
  /\ commit_fault Samples.sample_db = None
  /\ Routes.build_proposal Samples.no_float MoreSamples.robe_form
     = inr (inr Samples.robe_dior_2000)
  /\ candidates Samples.robe_dior_2000 Samples.sample_db
     = [MoreSamples.alice_robe]
  /\ (forall e, In e (auction_events Samples.sample_db) ->
                ~ Routes.accepted_for (auction_id Samples.robe_dior_2000)
                    (item_id Samples.robe_dior_2000) e)
  /\ exists decision db1 db2 accepted outcome,
       Routes.evaluate_auction Samples.no_float MoreSamples.robe_form
         Samples.sample_db
       = (inr (Routes.decision_response Samples.robe_dior_2000 decision), db1)
       /\ success decision = true
       /\ auction_events db1 = auction_events Samples.sample_db ++ [accepted]
       /\ Routes.auction_result
            {| Routes.rf_auction_id := Some (auction_id Samples.robe_dior_2000);
               Routes.rf_item_id := Some (item_id Samples.robe_dior_2000);
               Routes.rf_won := Some (JBool true);
               Routes.rf_final_price := None;
               Routes.rf_winner_info := None;
               Routes.rf_other := false |} db1
          = (inr (Routes.RecordedBody
                    "Résultat enregistré avec succès"%string
                    (auction_id Samples.robe_dior_2000), 200%Z),
             db2)
       /\ auction_events db2
          = auction_events Samples.sample_db ++ [accepted; outcome]
       /\ event_type outcome
          = (if truthy (JBool true) then "bid_won" else "bid_lost")%string
       /\ ev_user_id outcome = user_id decision
       /\ ev_bid_amount outcome = bid_amount decision
       /\ ev_category outcome = category Samples.robe_dior_2000
       /\ ev_brand outcome = brand Samples.robe_dior_2000
       /\ ev_starting_price outcome = starting_price Samples.robe_dior_2000
       /\ ev_max_price outcome = max_price Samples.robe_dior_2000.
Proof.
  split; [reflexivity|]. split; [reflexivity|]. split; [reflexivity|].
  split; [vm_compute; reflexivity|]. split; [vm_compute; reflexivity|].
  split; [intros e []|].
  apply (@accepted_bid_is_found_by_outcome Samples.no_float
           MoreSamples.robe_form Samples.robe_dior_2000 Samples.sample_db
           MoreSamples.alice_robe [] (JBool true) None None false).
  - reflexivity.
  - reflexivity.
  - reflexivity.
  - vm_compute; reflexivity.
  - vm_compute; reflexivity.
  - intros e [].
Defined.

Lemma rejected_bid_is_not_found_witness :
  session_new Samples.sample_db = []
  /\ read_fault Samples.sample_db = None
  /\ Routes.build_proposal Samples.no_float MoreSamples.chaussures_form
     = inr (inr Samples.chaussures_nike)
  /\ candidates Samples.chaussures_nike Samples.sample_db = []
  /\ (forall e, In e (auction_events Samples.sample_db) ->
                ~ Routes.accepted_for (auction_id Samples.chaussures_nike)
                    (item_id Samples.chaussures_nike) e)
  /\ exists db1 db2,
       Routes.evaluate_auction Samples.no_float MoreSamples.chaussures_form
         Samples.sample_db
       = (inr (Routes.RejectedBody (auction_id Samples.chaussures_nike)
                 (item_id Samples.chaussures_nike)
                 (Some "Aucun utilisateur ne correspond aux critères"%string),
               422%Z),
          db1)
       /\ Routes.auction_result
            {| Routes.rf_auction_id :=
                 Some (auction_id Samples.chaussures_nike);
               Routes.rf_item_id := Some (item_id Samples.chaussures_nike);
               Routes.rf_won := Some (JBool true);
               Routes.rf_final_price := None;
               Routes.rf_winner_info := None;
               Routes.rf_other := false |} db1
          = (inr (Routes.ErrorBody "Enchère originale non trouvée"%string,
                  404%Z),
             db2)
       /\ auction_events db2 = auction_events db1.
Proof.
  split; [reflexivity|]. split; [reflexivity|].
  split; [vm_compute; reflexivity|]. split; [vm_compute; reflexivity|].
  split; [intros e []|].
  apply (@rejected_bid_is_not_found Samples.no_float
           MoreSamples.chaussures_form Samples.chaussures_nike
           Samples.sample_db (JBool true) None None false).
  - reflexivity.
  - reflexivity.
  - vm_compute; reflexivity.
  - vm_compute; reflexivity.
  - intros e [].
Defined.

Lemma outcomes_are_not_deduplicated_witness :
  session_new Samples.ledger_db = []
  /\ read_fault Samples.ledger_db = None
  /\ commit_fault Samples.ledger_db = None
  /\ Routes.first_accepted "auction_123" "item_456"
       (auction_events Samples.ledger_db) Samples.accepted_event
  /\ exists db1 db2,
       Routes.auction_result
         {| Routes.rf_auction_id := Some "auction_123"%string;
            Routes.rf_item_id := Some "item_456"%string;
            Routes.rf_won := Some (JBool true);
            Routes.rf_final_price := None;
            Routes.rf_winner_info := None;
            Routes.rf_other := false |} Samples.ledger_db
       = (inr (Routes.RecordedBody "Résultat enregistré avec succès"%string
                 "auction_123"%string, 200%Z), db1)
       /\ Routes.auction_result
            {| Routes.rf_auction_id := Some "auction_123"%string;
               Routes.rf_item_id := Some "item_456"%string;
               Routes.rf_won := Some (JBool false);
               Routes.rf_final_price := None;
               Routes.rf_winner_info := None;
               Routes.rf_other := false |} db1
          = (inr (Routes.RecordedBody
                    "Résultat enregistré avec succès"%string
                    "auction_123"%string, 200%Z), db2)
       /\ auction_events db2
          = auction_events Samples.ledger_db
            ++ [Routes.result_event "auction_123" "item_456" (JBool true)
                  None None Samples.accepted_event;
                Routes.result_event "auction_123" "item_456" (JBool false)
                  None None Samples.accepted_event].
Proof.
  assert (H : Routes.first_accepted "auction_123" "item_456"
                (auction_events Samples.ledger_db) Samples.accepted_event).
  { exists [], []. split; [reflexivity|]. split; [repeat split|].
    intros e []. }
  split; [reflexivity|]. split; [reflexivity|]. split; [reflexivity|].
  split; [exact H|].
  apply (@outcomes_are_not_deduplicated Samples.ledger_db "auction_123"
           "item_456" Samples.accepted_event (JBool true) (JBool false)
           None None None None false false); trivial.
Defined.

(** ** The preferences of a user *)

Section UserPreferences.

Variable users : list UserRoutes.User.
Variable user_id : Z.
Variable db : Database.


(** For an unknown user the handler answers with status 404 after one
    query; the preferences are not read. *)
Theorem unknown_user_is_404 :
  read_fault db = None ->
  (forall u, In u users -> UserRoutes.usr_id u <> user_id) ->
  UserRoutes.get_user_preferences users user_id db
  = (inr (UserRoutes.NotFound, 404%Z), log OpQuery db).
Proof.
  intros F N.
  unfold UserRoutes.get_user_preferences, bind, UserRoutes.query_user, ret.
  rewrite F.
  destruct (find (fun u0 => (UserRoutes.usr_id u0 =? user_id)%Z) users)
    as [found|] eqn:Q; [|reflexivity].
  apply find_some in Q as [Hin Heq]. apply Z.eqb_eq in Heq.
  destruct (N found Hin Heq).
Qed.

End UserPreferences.


Lemma unknown_user_is_404_witness :
  read_fault Samples.sample_db = None
  /\ (forall u, In u MoreSamples.users -> UserRoutes.usr_id u <> 999%Z)
  /\ UserRoutes.get_user_preferences MoreSamples.users 999 Samples.sample_db
     = (inr (UserRoutes.NotFound, 404%Z), log OpQuery Samples.sample_db).
Proof.
  assert (H : forall u, In u MoreSamples.users ->
                        UserRoutes.usr_id u <> 999%Z).
  { intros u [<-|[<-|[<-|[]]]]; discriminate. }
  split; [reflexivity|]. split; [exact H|].
  apply (@unknown_user_is_404 MoreSamples.users 999 Samples.sample_db);
    [reflexivity|exact H].
Defined.

(** The listings of [test_get_user_preferences_success] and
    [test_get_user_preferences_only_active]: two entries for user 1,
    none for user 3, whose only preference is inactive. *)
Example listing_lengths :
  fst (UserRoutes.get_user_preferences MoreSamples.users 1 Samples.sample_db)
  = inr (UserRoutes.PreferencesBody 1 "Alice Martin"
           [ UserRoutes.view (Samples.preference 1 1 "robe" "dior"
                                (PyFloat.decimal 2500 0) true);
             UserRoutes.view (Samples.preference 2 1 "manteau" "gucci"
                                (PyFloat.decimal 3000 0) true) ],
         200%Z)
  /\ fst (UserRoutes.get_user_preferences MoreSamples.users 3
            Samples.sample_db)
     = inr (UserRoutes.PreferencesBody 3 "Claire Dupont" [], 200%Z).
Proof. split; vm_compute; reflexivity. Qed.
